(** * AdvisorAI integration glue: embedding server, HubSpot OAuth2 flow and
      HubSpot REST client

    A shallow embedding of [embedding_server.py], [hubspot_oauth.py] and
    [hubspot_client.py].

    Conventions of the embedding.
    - Python [str] is [string]: the sequence of the UTF-8 bytes of the text.
    - A Python [dict] read by key only is a [gmap string _]; a [dict] whose
      order is observable (the parameters handed to [urlencode], a form
      body) is an association list.
    - Values that come out of JSON are [json]: [json.load] and
      [response.json()] return whatever the document holds, an object or
      not, so the functions annotated [-> Dict[str, Any]] that hand on a
      parsed body return a [json]; a dictionary the code builds itself is
      a [gmap string json].
    - Exceptions are values of [exn]; code that performs HTTP calls or
      touches [hubspot_tokens.json] runs in the monad [M] over [World].
    - Console output ([print], logging) is not modelled, but an expression
      evaluated for printing that can raise is. *)

From Stdlib Require Import ZArith NArith Ascii String SpecFloat.
From stdpp Require Import gmap strings list fin_maps pretty.

#[local] Set Warnings "-register-all".
#[local] Open Scope string_scope.
#[local] Open Scope list_scope.

(** ** Python values *)

Inductive json : Type :=
| JNull
| JBool (b : bool)
| JNum (z : Z)
| JFloat (f : spec_float)
| JStr (s : string)
| JArr (l : list json)
| JObj (m : gmap string json).

(** The exception classes the three files raise or provoke. All of them are
    subclasses of [Exception], so [except Exception] catches every one. *)
Inductive exn : Type :=
| Exception (msg : string)
| ValueError (msg : string)
| KeyError (key : string)
| TypeError (msg : string)
| AttributeError (msg : string)
| JSONDecodeError (msg : string).

(** [str(e)] *)
Definition exn_str (e : exn) : string :=
  match e with
  | Exception m | ValueError m | TypeError m | AttributeError m
  | JSONDecodeError m => m
  | KeyError k => "'" +:+ k +:+ "'"
  end.

Inductive result (A : Type) : Type :=
| Ok (a : A)
| Raise (e : exn).
Arguments Ok {A} a.
Arguments Raise {A} e.

(** ** String primitives of the Python runtime *)

Module PyStr.

(** [f"{n}"] for an [int]. *)
Definition of_int (n : Z) : string := pretty n.

(** [sep.join(parts)] *)
Definition join (sep : string) (parts : list string) : string :=
  String.concat sep parts.

(** [s.split(sep)] for a one-character separator: cuts at every
    occurrence, so the result has one more piece than there are
    separators and [''.split(sep) == ['']]. *)
Fixpoint split (sep : ascii) (s : string) : list string :=
  match s with
  | EmptyString => [EmptyString]
  | String c rest =>
      if Ascii.eqb c sep then EmptyString :: split sep rest
      else match split sep rest with
           | piece :: pieces => String c piece :: pieces
           | [] => [String c EmptyString]
           end
  end.

(** [s.split(sep, 1)]: [None] when [sep] does not occur, otherwise the
    text before and after its first occurrence. *)
Fixpoint split_once (sep : ascii) (s : string) : option (string * string) :=
  match s with
  | EmptyString => None
  | String c rest =>
      if Ascii.eqb c sep then Some (EmptyString, rest)
      else match split_once sep rest with
           | Some (before, after) => Some (String c before, after)
           | None => None
           end
  end.

(** [c in s] for a character. *)
Fixpoint occurs (c : ascii) (s : string) : bool :=
  match s with
  | EmptyString => false
  | String d rest => Ascii.eqb d c || occurs c rest
  end.

(** [all(ok(c) for c in s)] *)
Fixpoint all_chars (ok : ascii → bool) (s : string) : bool :=
  match s with
  | EmptyString => true
  | String c rest => ok c && all_chars ok rest
  end.

(** [c.isspace()] on the ASCII range. *)
Definition isspace (c : ascii) : bool :=
  let n := N_of_ascii c in
  ((9 <=? n) && (n <=? 13) || (28 <=? n) && (n <=? 32))%N.

(** The characters [str.isspace] accepts are the ASCII blanks and U+0085,
    U+00A0, U+1680, U+2000 to U+200A, U+2028, U+2029, U+202F, U+205F and
    U+3000. [blank_width s] is the number of bytes of the blank [s] starts
    with in UTF-8, and [0] when [s] does not start with a blank. *)
Definition blank_width (s : string) : nat :=
  match s with
  | EmptyString => 0
  | String c rest =>
      if isspace c then 1
      else
        match rest with
        | EmptyString => 0
        | String d rest =>
            let a := N_of_ascii c in
            let b := N_of_ascii d in
            if ((a =? 194) && ((b =? 133) || (b =? 160)))%N then 2
            else
              match rest with
              | EmptyString => 0
              | String e _ =>
                  let g := N_of_ascii e in
                  if ((a =? 225) && (b =? 154) && (g =? 128)
                      || (a =? 226) && (b =? 128)
                         && ((128 <=? g) && (g <=? 138)
                             || (g =? 168) || (g =? 169) || (g =? 175))
                      || (a =? 226) && (b =? 129) && (g =? 159)
                      || (a =? 227) && (b =? 128) && (g =? 128))%N
                  then 3
                  else 0
              end
        end
  end.

(** Whether a blank starts somewhere in [s]. *)
Fixpoint has_blank (s : string) : bool :=
  match s with
  | EmptyString => false
  | String _ rest => negb (Nat.eqb (blank_width s) 0) || has_blank rest
  end.

(** [len(s.split())]: the number of maximal runs of non-blank
    characters. [in_word] tells whether the previous character belonged
    to a word, [skip] how many bytes of the blank being read are left. *)
Fixpoint count_words (in_word : bool) (skip : nat) (s : string) : nat :=
  match s with
  | EmptyString => 0
  | String c rest =>
      match skip with
      | S more => count_words false more rest
      | 0 =>
          match blank_width s with
          | S more => count_words false more rest
          | 0 => if in_word then count_words true 0 rest
                 else S (count_words true 0 rest)
          end
      end
  end.

Definition word_count (s : string) : nat := count_words false 0 s.

(** [s.strip()]: blanks are dropped at both ends. *)
Fixpoint lstrip_from (skip : nat) (s : string) : string :=
  match s with
  | EmptyString => EmptyString
  | String c rest =>
      match skip with
      | S more => lstrip_from more rest
      | 0 =>
          match blank_width s with
          | S more => lstrip_from more rest
          | 0 => s
          end
      end
  end.

Definition lstrip (s : string) : string := lstrip_from 0 s.

(** Whether [s] is made of blanks only. *)
Fixpoint all_blank (skip : nat) (s : string) : bool :=
  match s with
  | EmptyString => true
  | String c rest =>
      match skip with
      | S more => all_blank more rest
      | 0 =>
          match blank_width s with
          | S more => all_blank more rest
          | 0 => false
          end
      end
  end.

Fixpoint rstrip (s : string) : string :=
  match s with
  | EmptyString => EmptyString
  | String c rest => if all_blank 0 s then EmptyString else String c (rstrip rest)
  end.

Definition strip (s : string) : string := rstrip (lstrip s).

(** [needle in s] for two strings. *)
Fixpoint is_infix (needle s : string) : bool :=
  String.prefix needle s
  || match s with
     | EmptyString => false
     | String _ rest => is_infix needle rest
     end.

(** Truth value of an optional string: [None] and [''] are falsy. *)
Definition truthy (o : option string) : bool :=
  match o with
  | Some EmptyString | None => false
  | Some _ => true
  end.

End PyStr.

(** ** [urllib.parse] *)

Module Urllib.

(** [_ALWAYS_SAFE]: ASCII letters, digits and [_.-~]. *)
Definition always_safe (c : ascii) : bool :=
  let n := N_of_ascii c in
  ((65 <=? n) && (n <=? 90) || (97 <=? n) && (n <=? 122)
   || (48 <=? n) && (n <=? 57)
   || (n =? 95) || (n =? 46) || (n =? 45) || (n =? 126))%N.

Definition hex_digit (n : N) : ascii :=
  if (n <? 10)%N then ascii_of_N (48 + n) else ascii_of_N (55 + n).

(** ['%{:02X}'.format(byte)] *)
Definition percent_escape (c : ascii) : string :=
  let n := N_of_ascii c in
  String "%" (String (hex_digit (n / 16)) (String (hex_digit (n mod 16)) EmptyString)).

(** [quote_plus(s, safe='')]: safe bytes stay, a space becomes [+], every
    other byte becomes [%XX]. *)
Definition quote_plus_byte (c : ascii) : string :=
  if always_safe c then String c EmptyString
  else if Ascii.eqb c " " then "+"
  else percent_escape c.

Fixpoint quote_plus (s : string) : string :=
  match s with
  | EmptyString => EmptyString
  | String c rest => quote_plus_byte c +:+ quote_plus rest
  end.

(** [urlencode(params)] for string keys and values, in the order of the
    dictionary. *)
Definition urlencode (params : list (string * string)) : string :=
  PyStr.join "&" (map (λ kv, quote_plus kv.1 +:+ "=" +:+ quote_plus kv.2) params).

(** One [key=value] field as [urlencode] writes it. *)
Definition encode_pair (kv : string * string) : string :=
  quote_plus kv.1 +:+ "=" +:+ quote_plus kv.2.

Definition hex_value (c : ascii) : option N :=
  let n := N_of_ascii c in
  if ((48 <=? n) && (n <=? 57))%N then Some (n - 48)%N
  else if ((65 <=? n) && (n <=? 70))%N then Some (n - 55)%N
  else if ((97 <=? n) && (n <=? 102))%N then Some (n - 87)%N
  else None.

(** [unquote_to_bytes(s.replace('+', ' '))], the first step of
    [unquote_plus]: [%XX] with two hex digits is decoded, a [%] not
    followed by two hex digits is kept. The second step, reading the
    bytes as UTF-8 with [errors='replace'], is [utf8_replace] below. *)
Fixpoint unquote_plus (s : string) : string :=
  match s with
  | EmptyString => EmptyString
  | String "%" (String h (String l rest) as tail) =>
      match hex_value h, hex_value l with
      | Some hi, Some lo => String (ascii_of_N (16 * hi + lo)) (unquote_plus rest)
      | _, _ => String "%" (unquote_plus tail)
      end
  | String c rest =>
      String (if Ascii.eqb c "+" then " "%char else c) (unquote_plus rest)
  end.

Definition upper_hex (c : ascii) : bool :=
  let n := N_of_ascii c in
  ((48 <=? n) && (n <=? 57) || (65 <=? n) && (n <=? 70))%N.

(** The characters [quote_plus] can produce. *)
Definition url_char (c : ascii) : bool :=
  always_safe c || Ascii.eqb c "+" || Ascii.eqb c "%".

(** The shape of a percent-encoded component: unreserved characters,
    [+], and [%] followed by two upper-case hex digits; nothing else. *)
Fixpoint percent_encoded (s : string) : bool :=
  match s with
  | EmptyString => true
  | String "%" (String h (String l rest)) =>
      upper_hex h && upper_hex l && percent_encoded rest
  | String c rest =>
      (always_safe c || Ascii.eqb c "+") && percent_encoded rest
  end.

Definition continuation (c : ascii) : bool :=
  let n := N_of_ascii c in ((128 <=? n) && (n <=? 191))%N.

(** The byte that may follow the lead byte [lead] of a sequence of three
    or four bytes: E0, ED, F0 and F4 narrow the range (no overlong forms,
    no surrogates, nothing above U+10FFFF). *)
Definition second_byte (lead c : ascii) : bool :=
  let a := N_of_ascii lead in
  let n := N_of_ascii c in
  (if a =? 224 then (160 <=? n) && (n <=? 191)
   else if a =? 237 then (128 <=? n) && (n <=? 159)
   else if a =? 240 then (144 <=? n) && (n <=? 191)
   else if a =? 244 then (128 <=? n) && (n <=? 143)
   else (128 <=? n) && (n <=? 191))%N.

(** U+FFFD in UTF-8. *)
Definition replacement (rest : string) : string :=
  String (ascii_of_N 239) (String (ascii_of_N 191) (String (ascii_of_N 189) rest)).

(** [bytes.decode('utf-8', errors='replace')], written back as UTF-8:
    well-formed sequences stay; a byte that cannot start a sequence, and
    the longest well-formed beginning of a sequence that is cut short,
    each become one U+FFFD, and decoding goes on at the next byte. *)
Fixpoint utf8_replace (s : string) : string :=
  match s with
  | EmptyString => EmptyString
  | String c rest =>
      let n := N_of_ascii c in
      if (n <? 128)%N then String c (utf8_replace rest)
      else if ((n <? 194) || (244 <? n))%N then replacement (utf8_replace rest)
      else if (n <? 224)%N then
        match rest with
        | String c2 rest2 =>
            if continuation c2 then String c (String c2 (utf8_replace rest2))
            else replacement (utf8_replace rest)
        | EmptyString => replacement EmptyString
        end
      else if (n <? 240)%N then
        match rest with
        | String c2 rest2 =>
            if second_byte c c2 then
              match rest2 with
              | String c3 rest3 =>
                  if continuation c3
                  then String c (String c2 (String c3 (utf8_replace rest3)))
                  else replacement (utf8_replace rest2)
              | EmptyString => replacement EmptyString
              end
            else replacement (utf8_replace rest)
        | EmptyString => replacement EmptyString
        end
      else
        match rest with
        | String c2 rest2 =>
            if second_byte c c2 then
              match rest2 with
              | String c3 rest3 =>
                  if continuation c3 then
                    match rest3 with
                    | String c4 rest4 =>
                        if continuation c4
                        then String c (String c2 (String c3 (String c4
                                                     (utf8_replace rest4))))
                        else replacement (utf8_replace rest3)
                    | EmptyString => replacement EmptyString
                    end
                  else replacement (utf8_replace rest2)
              | EmptyString => replacement EmptyString
              end
            else replacement (utf8_replace rest)
        | EmptyString => replacement EmptyString
        end
  end.

(** [url.replace(b, "")] for the three characters of
    [_UNSAFE_URL_BYTES_TO_REMOVE]: tab, line feed, carriage return. *)
Definition unsafe (c : ascii) : bool :=
  let n := N_of_ascii c in ((n =? 9) || (n =? 10) || (n =? 13))%N.

Fixpoint remove_unsafe (url : string) : string :=
  match url with
  | EmptyString => EmptyString
  | String c rest =>
      if unsafe c then remove_unsafe rest else String c (remove_unsafe rest)
  end.

(** [url.lstrip(_WHATWG_C0_CONTROL_OR_SPACE)] *)
Fixpoint lstrip_c0 (url : string) : string :=
  match url with
  | EmptyString => EmptyString
  | String c rest => if (N_of_ascii c <=? 32)%N then lstrip_c0 rest else url
  end.

(** [urlparse(url).query], when [urlparse] returns: tabs and line breaks
    are removed, the fragment is cut off at the first [#], then the query
    is what follows the first [?]. Splitting off a scheme and a network
    location beforehand takes nothing away from the query, because the
    scheme ends before the first [:] and the network location before the
    first [/], [?] or [#]. *)
Definition urlparse_query (url : string) : string :=
  let url := remove_unsafe url in
  let without_fragment :=
    match PyStr.split_once "#" url with
    | Some (before, _) => before
    | None => url
    end in
  match PyStr.split_once "?" without_fragment with
  | Some (_, query) => query
  | None => EmptyString
  end.

(** [scheme_chars] *)
Definition scheme_char (c : ascii) : bool :=
  let n := N_of_ascii c in
  ((65 <=? n) && (n <=? 90) || (97 <=? n) && (n <=? 122)
   || (48 <=? n) && (n <=? 57)
   || (n =? 43) || (n =? 45) || (n =? 46))%N.

Definition starts_with_slashes (url : string) : bool :=
  match url with
  | String "/" (String "/" _) => true
  | _ => false
  end.

(** [urlsplit] looks for a network location when what is left of the URL
    after the leading blanks and a scheme ([scheme_chars] up to the first
    [:]) begins with [//]. Only then can it raise. *)
Definition may_have_netloc (url : string) : bool :=
  let url := remove_unsafe (lstrip_c0 url) in
  starts_with_slashes url
  || match PyStr.split_once ":" url with
     | Some (scheme, rest) =>
         negb (String.eqb scheme EmptyString)
         && PyStr.all_chars scheme_char scheme
         && starts_with_slashes rest
     | None => false
     end.

(** [urlparse(url)], of which the callers read [.query] only. A URL with a
    network location is checked ([Invalid IPv6 URL] for unbalanced or
    ill-filled brackets, and the NFKC check of a host that is not ASCII)
    and [urlparse] raises [ValueError] when the check fails; [accepts]
    gives the verdict of that check. A URL without network location, such
    as a request target in origin form, is never refused. *)
Definition urlparse (accepts : string → bool) (url : string) : result string :=
  if may_have_netloc url && negb (accepts url)
  then Raise (ValueError "Invalid IPv6 URL")
  else Ok (urlparse_query url).

(** The fields of [parse_qsl(qs)] with the defaults
    [keep_blank_values=False], [strict_parsing=False], [separator='&'],
    as bytes: fields without [=] or with an empty value are dropped. *)
Definition parse_field (name_value : string) : option (string * string) :=
  match PyStr.split_once "=" name_value with
  | Some (name, EmptyString) => None
  | Some (name, value) => Some (unquote_plus name, unquote_plus value)
  | None => None
  end.

Definition parse_qsl (qs : string) : list (string * string) :=
  omap parse_field (PyStr.split "&" qs).

(** [parse_qs(qs)]: names and values are read as UTF-8 with
    [errors='replace'], and the values of a repeated name are collected
    in order of appearance. *)
Definition parse_qs (qs : string) : gmap string (list string) :=
  foldl (λ parsed nv,
           match parsed !! nv.1 with
           | Some values => <[nv.1 := values ++ [nv.2]]> parsed
           | None => <[nv.1 := [nv.2]]> parsed
           end)
        ∅ ((λ nv, (utf8_replace nv.1, utf8_replace nv.2)) <$> parse_qsl qs).

End Urllib.

(** ** The outside world: HTTP, the credential file, the JSON library *)

(** A call of [requests.request]/[requests.post]/[requests.get]. [params],
    [data] and [json_body] are the keyword arguments of the same name
    ([json_body] is [json=]). *)
Record Request : Type := {
  method : string;
  url : string;
  headers : list (string * string);
  params : list (string * json);
  data : list (string * json);
  json_body : option json
}.

Record Response : Type := {
  status_code : Z;
  text : string
}.

(** What the program does not own: the remote servers ([respond] answers a
    request given the requests sent before it); the [json] library
    ([json_loads] is [None] for a text that is not JSON and otherwise the
    value the text denotes, an object or not); [str()] of a value that is
    not a string; the check [urlsplit] makes of a network location (see
    [Urllib.urlparse]); and [dict.update] with an argument that is a
    list or a non-empty string, whose outcome depends on what the
    elements are. *)
Class Runtime : Type := {
  respond : list Request → Request → Response;
  json_loads : string → option json;
  json_dumps : gmap string json → string;
  py_repr : json → string;
  urlsplit_accepts : string → bool;
  update_from_iterable : gmap string json → json → result (gmap string json)
}.

(** [f"{v}"] *)
Definition py_str `{Runtime} (v : json) : string :=
  match v with
  | JStr s => s
  | other => py_repr other
  end.

(** [tokens_file] is the content of [hubspot_tokens.json] ([None]: the file
    does not exist); [sent] lists the HTTP requests issued so far. *)
Record World : Type := {
  tokens_file : option string;
  sent : list Request
}.

Definition M (A : Type) : Type := World → result A * World.

Definition ret {A} (a : A) : M A := λ w, (Ok a, w).

Definition raise {A} (e : exn) : M A := λ w, (Raise e, w).

Definition bind {A B} (m : M A) (k : A → M B) : M B :=
  λ w, match m w with
       | (Ok a, w') => k a w'
       | (Raise e, w') => (Raise e, w')
       end.

(** [try: body except Exception as e: handler(e)]: what [body] did to the
    world before it raised stays done. *)
Definition try_except {A} (body : M A) (handler : exn → M A) : M A :=
  λ w, match body w with
       | (Ok a, w') => (Ok a, w')
       | (Raise e, w') => handler e w'
       end.

Notation "'do' x <- m ; k" := (bind m (λ x, k))
  (at level 10, x name, m at level 100, k at level 200,
   format "'[v' 'do'  x  <-  m ; '/' k ']'").
Notation "'run' m ; k" := (bind m (λ _, k))
  (at level 10, m at level 100, k at level 200,
   format "'[v' 'run'  m ; '/' k ']'").

Definition lift {A} (r : result A) : M A := λ w, (r, w).

(** [requests.request(...)]: one request goes out, one response comes in. *)
Definition requests_request `{Runtime} (req : Request) : M Response :=
  λ w, (Ok (respond (sent w) req),
        {| tokens_file := tokens_file w; sent := sent w ++ [req] |}).

(** [response.json()] *)
Definition response_json `{Runtime} (response : Response) : M json :=
  match json_loads (text response) with
  | Some body => ret body
  | None => raise (JSONDecodeError "Expecting value")
  end.

(** [open('hubspot_tokens.json', 'w')] truncates the file. *)
Definition open_for_writing : M unit :=
  λ w, (Ok tt, {| tokens_file := Some EmptyString; sent := sent w |}).

(** [json.dump(record, f, indent=2)] into the file just opened. *)
Definition json_dump `{Runtime} (record : gmap string json) : M unit :=
  λ w, (Ok tt, {| tokens_file := Some (json_dumps record); sent := sent w |}).

(** [value[:20]]: strings and lists can be sliced. *)
Definition slice_prefix (value : json) : M unit :=
  match value with
  | JStr _ | JArr _ => ret tt
  | _ => raise (TypeError "object is not subscriptable")
  end.

(** [d[key]] for a dictionary. *)
Definition subscript (d : gmap string json) (key : string) : M json :=
  match d !! key with
  | Some v => ret v
  | None => raise (KeyError key)
  end.

(** [value[key]] for a value that came out of JSON and a string [key]:
    lists and strings want integer indices, the other values cannot be
    subscripted. *)
Definition json_subscript (value : json) (key : string) : M json :=
  match value with
  | JObj d => subscript d key
  | JArr _ => raise (TypeError "list indices must be integers or slices, not str")
  | JStr _ => raise (TypeError "string indices must be integers, not 'str'")
  | _ => raise (TypeError "object is not subscriptable")
  end.

(** The receiver of [.get]: only a dictionary has the method, on any
    other value the attribute lookup raises. *)
Definition dict_get (value : json) : M (gmap string json) :=
  match value with
  | JObj d => ret d
  | _ => raise (AttributeError "object has no attribute 'get'")
  end.

(** [value.split(' ')]: only [str] has the method. *)
Definition split_on_space (value : json) : M (list string) :=
  match value with
  | JStr s => ret (PyStr.split " " s)
  | _ => raise (AttributeError "object has no attribute 'split'")
  end.

(** [bool(d)] for a dictionary. *)
Definition dict_truthy (d : gmap string json) : bool :=
  negb (bool_decide (d = ∅)).

(** [bool(v)] for a value that came out of JSON. *)
Definition json_truthy (v : json) : bool :=
  match v with
  | JNull => false
  | JBool b => b
  | JNum z => negb (z =? 0)%Z
  | JFloat (S754_zero _) => false
  | JFloat _ => true
  | JStr s => PyStr.truthy (Some s)
  | JArr items => negb (bool_decide (items = []))
  | JObj fields => dict_truthy fields
  end.

(** [key in container] for a string [key]: a key of a dictionary, an
    element of a list, a piece of a string; the other values are not
    containers. *)
Definition json_contains (container : json) (key : string) : result bool :=
  match container with
  | JObj d => Ok (bool_decide (is_Some (d !! key)))
  | JArr items =>
      Ok (existsb (λ item, match item with
                           | JStr s => String.eqb s key
                           | _ => false
                           end) items)
  | JStr s => Ok (PyStr.is_infix key s)
  | _ => Raise (TypeError "argument is not iterable")
  end.

(** The values that are neither a dictionary, nor a list, nor a string:
    [in] and [update] cannot iterate over them. *)
Definition not_iterable (v : json) : bool :=
  match v with
  | JObj _ | JArr _ | JStr _ => false
  | _ => true
  end.

(** [v == text] for a string literal [text]. *)
Definition equals_str (v : option json) (literal : string) : bool :=
  match v with
  | Some (JStr s) => String.eqb s literal
  | _ => false
  end.

(** ** [hubspot_oauth.py] *)

Module HubspotOauth.

(** The variables [HubSpotOAuth.__init__] reads with [os.getenv]. *)
Record Env : Type := {
  HUBSPOT_CLIENT_ID : option string;
  HUBSPOT_CLIENT_SECRET : option string;
  HUBSPOT_REDIRECT_URI : option string
}.

Record HubSpotOAuth : Type := {
  client_id : string;
  client_secret : string;
  redirect_uri : string;
  authorize_url : string;
  token_url : string;
  user_info_url : string;
  default_scopes : list string
}.

(** [HubSpotOAuth()] *)
Definition HubSpotOAuth_init (env : Env) : result HubSpotOAuth :=
  if negb (PyStr.truthy (HUBSPOT_CLIENT_ID env))
     || negb (PyStr.truthy (HUBSPOT_CLIENT_SECRET env))
  then Raise (ValueError ("Missing HubSpot credentials in .env file. "
                          +:+ "Please set HUBSPOT_CLIENT_ID and HUBSPOT_CLIENT_SECRET"))
  else Ok {| client_id := default EmptyString (HUBSPOT_CLIENT_ID env);
             client_secret := default EmptyString (HUBSPOT_CLIENT_SECRET env);
             redirect_uri := default "http://localhost:4000/hubspot/oauth/callback"
                                     (HUBSPOT_REDIRECT_URI env);
             authorize_url := "https://app.hubspot.com/oauth/authorize";
             token_url := "https://api.hubapi.com/oauth/v1/token";
             user_info_url := "https://api.hubapi.com/oauth/v1/access-tokens";
             default_scopes := ["crm.objects.contacts.read";
                                "crm.objects.contacts.write";
                                "crm.schemas.contacts.read";
                                "crm.schemas.contacts.write";
                                "oauth"] |}.

(** The [params] dictionary of [get_authorization_url], in its order. *)
Definition authorization_params (self : HubSpotOAuth) (scopes : list string)
    (state : string) : list (string * string) :=
  [("client_id", client_id self);
   ("redirect_uri", redirect_uri self);
   ("scope", PyStr.join " " scopes);
   ("response_type", "code");
   ("state", state)].

(** [get_authorization_url(scopes, state)]. [token_urlsafe] is what
    [secrets.token_urlsafe(16)] returns if it is called. *)
Definition get_authorization_url (self : HubSpotOAuth)
    (scopes : option (list string)) (state : option string)
    (token_urlsafe : string) : string :=
  let scopes := match scopes with
                | None => default_scopes self
                | Some given => given
                end in
  let state := match state with
               | None => token_urlsafe
               | Some given => given
               end in
  authorize_url self +:+ "?"
    +:+ Urllib.urlencode (authorization_params self scopes state).

Definition form_headers : list (string * string) :=
  [("Content-Type", "application/x-www-form-urlencoded")].

Definition bearer_headers `{Runtime} (access_token : json) : list (string * string) :=
  [("Authorization", "Bearer " +:+ py_str access_token);
   ("Content-Type", "application/json")].

Definition exchange_request (self : HubSpotOAuth) (authorization_code : string)
    : Request :=
  {| method := "POST"; url := token_url self; headers := form_headers;
     params := [];
     data := [("grant_type", JStr "authorization_code");
              ("client_id", JStr (client_id self));
              ("client_secret", JStr (client_secret self));
              ("redirect_uri", JStr (redirect_uri self));
              ("code", JStr authorization_code)];
     json_body := None |}.

Definition exchange_code_for_token `{Runtime} (self : HubSpotOAuth)
    (authorization_code : string) : M json :=
  do response <- requests_request (exchange_request self authorization_code);
  if (status_code response =? 200)%Z then response_json response
  else raise (Exception ("Token exchange failed: "
                         +:+ PyStr.of_int (status_code response)
                         +:+ " - " +:+ text response)).

Definition refresh_request (self : HubSpotOAuth) (refresh_token : json)
    : Request :=
  {| method := "POST"; url := token_url self; headers := form_headers;
     params := [];
     data := [("grant_type", JStr "refresh_token");
              ("client_id", JStr (client_id self));
              ("client_secret", JStr (client_secret self));
              ("refresh_token", refresh_token)];
     json_body := None |}.

Definition refresh_access_token `{Runtime} (self : HubSpotOAuth)
    (refresh_token : json) : M json :=
  do response <- requests_request (refresh_request self refresh_token);
  if (status_code response =? 200)%Z then response_json response
  else raise (Exception ("Token refresh failed: "
                         +:+ PyStr.of_int (status_code response)
                         +:+ " - " +:+ text response)).

Definition user_info_request `{Runtime} (self : HubSpotOAuth)
    (access_token : json) : Request :=
  {| method := "GET";
     url := user_info_url self +:+ "/" +:+ py_str access_token;
     headers := bearer_headers access_token;
     params := []; data := []; json_body := None |}.

Definition get_user_info `{Runtime} (self : HubSpotOAuth) (access_token : json)
    : M json :=
  do response <- requests_request (user_info_request self access_token);
  if (status_code response =? 200)%Z then response_json response
  else raise (Exception ("Failed to get user info: "
                         +:+ PyStr.of_int (status_code response)
                         +:+ " - " +:+ text response)).

Definition test_request `{Runtime} (access_token : json) : Request :=
  {| method := "GET";
     url := "https://api.hubapi.com/crm/v3/objects/contacts";
     headers := bearer_headers access_token;
     params := []; data := []; json_body := None |}.

Definition test_api_connection `{Runtime} (self : HubSpotOAuth)
    (access_token : json) : M (gmap string json) :=
  do response <- requests_request (test_request access_token);
  if (status_code response =? 200)%Z
  then ret {[ "status" := JStr "success";
              "message" := JStr "API connection successful" ]}
  else ret {[ "status" := JStr "error";
              "message" := JStr ("API connection failed: "
                                 +:+ PyStr.of_int (status_code response)) ]}.

(** *** The callback listener *)

(** The attributes [auth_code], [state], [error]; the handler and the
    server carry the same three. *)
Record Captured : Type := {
  auth_code : option string;
  state : option string;
  error : option string
}.

(** What a handler writes to the socket. *)
Record Reply : Type := {
  reply_status : Z;
  reply_headers : list (string * string);
  reply_body : string
}.

(** [OAuthCallbackHandler.__init__] and [start_callback_server] both
    start from three [None]s. *)
Definition nothing_captured : Captured :=
  {| auth_code := None; state := None; error := None |}.

Definition success_page : string :=
"
            <html>
            <head><title>OAuth Success</title></head>
            <body>
                <h1>Authentication Successful!</h1>
                <p>You can close this window now.</p>
                <script>window.close();</script>
            </body>
            </html>
            ".

Definition error_page (reason : string) : string :=
"
            <html>
            <head><title>OAuth Error</title></head>
            <body>
                <h1>Authentication Failed</h1>
                <p>Error: " +:+ reason +:+ "</p>
                <p>You can close this window now.</p>
                <script>window.close();</script>
            </body>
            </html>
            ".

(** [do_GET]: [self] is the handler, [path] is [self.path]. Returns the
    handler after the call, what was written to the socket ([None]:
    nothing, not even a status line) and the server attributes assigned
    at the end; or the exception of [urlparse], raised before anything
    else is done. *)
Definition do_GET `{Runtime} (self : Captured) (path : string)
    : result (Captured * option Reply * Captured) :=
  match Urllib.urlparse urlsplit_accepts path with
  | Raise e => Raise e
  | Ok query =>
      let query_params := Urllib.parse_qs query in
      let '(self, reply) :=
        match query_params !! "code" with
        | Some values =>
            (* 'code' in query_params; a list parse_qs builds is never empty *)
            ({| auth_code := head values;
                state := head (default [] (query_params !! "state"));
                error := error self |},
             Some {| reply_status := 200;
                     reply_headers := [("Content-type", "text/html")];
                     reply_body := success_page |})
        | None =>
            match query_params !! "error" with
            | Some values =>
                ({| auth_code := auth_code self;
                    state := state self;
                    error := head values |},
                 Some {| reply_status := 400;
                         reply_headers := [("Content-type", "text/html")];
                         reply_body := error_page (default EmptyString (head values)) |})
            | None => (self, None)
            end
        end in
      Ok (self, reply,
          {| auth_code := auth_code self; state := state self; error := error self |})
  end.

(** The server makes a fresh handler for each request; the handler
    assigns the server attributes whatever they were. When [do_GET]
    raises, the server logs the exception and closes the connection:
    nothing was sent and the server attributes are what they were. *)
Definition handle_request `{Runtime} (path : string) (server : Captured)
    : option Reply * Captured :=
  match do_GET nothing_captured path with
  | Ok (_, reply, server) => (reply, server)
  | Raise _ => (None, server)
  end.

(** [start_callback_server()], for a listener that could be bound to its
    port: the three attributes start as [None]. ([HTTPServer] raises
    [OSError] when port 4000 is taken; nothing below speaks of a flow
    whose listener never came up.) *)
Definition start_callback_server : Captured := nothing_captured.

(** The condition of the wait loop. *)
Definition still_waiting (server : Captured) : bool :=
  bool_decide (auth_code server = None) && bool_decide (error server = None).

(** [while server.auth_code is None and server.error is None:
    time.sleep(1)]. [incoming] gives, for each sleep, the request
    targets the listener thread serves during it. [None]: the loop has
    not left after all of [incoming]. *)
Fixpoint wait_for_callback `{Runtime} (server : Captured)
    (incoming : list (list string)) : option Captured :=
  if still_waiting server then
    match incoming with
    | [] => None
    | during_sleep :: later =>
        wait_for_callback
          (foldl (λ srv path, (handle_request path srv).2) server during_sleep)
          later
    end
  else Some server.

(** What the server holds once a callback has brought something: a
    non-empty code and no error, or a non-empty error and nothing else. *)
Definition settled (server : Captured) : Prop :=
  (∃ code, auth_code server = Some code ∧ code ≠ EmptyString ∧ error server = None)
  ∨ (∃ reason, error server = Some reason ∧ reason ≠ EmptyString
               ∧ auth_code server = None ∧ state server = None).

(** *** The interactive flow *)

(** The record written to [hubspot_tokens.json]. *)
Definition saved_record (token_data user_info : gmap string json)
    (access_token : json) (scopes : list string) : gmap string json :=
  {[ "access_token" := access_token;
     "refresh_token" := default JNull (token_data !! "refresh_token");
     "expires_in" := default JNull (token_data !! "expires_in");
     "user" := default JNull (user_info !! "user");
     "scopes" := JArr (JStr <$> scopes) ]}.

(** The dictionary [interactive_oauth_flow] returns on success. *)
Definition flow_summary (token_data user_info api_test : gmap string json)
    (access_token : json) : gmap string json :=
  {[ "access_token" := access_token;
     "refresh_token" := default JNull (token_data !! "refresh_token");
     "expires_in" := default JNull (token_data !! "expires_in");
     "user_info" := JObj user_info;
     "api_test" := JObj api_test ]}.

(** The body of the [try] once an authorization code is in hand. The
    first thing done with the token response and with the user
    information is a [.get], which only a dictionary has. *)
Definition exchange_and_save `{Runtime} (oauth_client : HubSpotOAuth)
    (code : string) : M (option (gmap string json)) :=
  do token_data <- exchange_code_for_token oauth_client code;
  do token_data <- dict_get token_data;
  (* the two slices evaluated for printing *)
  run slice_prefix (default (JStr "N/A") (token_data !! "access_token"));
  run slice_prefix (default (JStr "N/A") (token_data !! "refresh_token"));
  do access_token <- subscript token_data "access_token";
  do user_info <- get_user_info oauth_client access_token;
  do user_info <- dict_get user_info;
  do api_test <- test_api_connection oauth_client access_token;
  run open_for_writing;
  do scopes <- split_on_space (default (JStr EmptyString) (token_data !! "scope"));
  run json_dump (saved_record token_data user_info access_token scopes);
  ret (Some (flow_summary token_data user_info api_test access_token)).

(** The flow from [server.shutdown()] on. *)
Definition after_callback `{Runtime} (oauth_client : HubSpotOAuth)
    (server : Captured) : M (option (gmap string json)) :=
  if PyStr.truthy (error server) then ret None
  else
    match auth_code server with
    | Some code =>
        if PyStr.truthy (Some code)
        then try_except (exchange_and_save oauth_client code) (λ _, ret None)
        else ret None
    | None => ret None
    end.

(** [interactive_oauth_flow()], given that the listener came up. [None]:
    the flow is still in its wait loop when [incoming] is used up. *)
Definition interactive_oauth_flow `{Runtime} (env : Env) (token_urlsafe : string)
    (incoming : list (list string)) (w : World)
    : option (result (option (gmap string json)) * World) :=
  match HubSpotOAuth_init env with
  | Raise _ => Some (Ok None, w)
  | Ok oauth_client =>
      let auth_url := get_authorization_url oauth_client None None token_urlsafe in
      let server := start_callback_server in
      (* webbrowser.open(auth_url) *)
      match wait_for_callback server incoming with
      | None => None
      | Some server => Some (after_callback oauth_client server w)
      end
  end.

(** *** Saved tokens *)

(** [load_saved_tokens()]: whatever JSON value a readable file holds. *)
Definition load_saved_tokens `{Runtime} : M (option json) :=
  λ w, match tokens_file w with
       | Some content => (Ok (json_loads content), w)
       | None => (Ok None, w)
       end.

(** [tokens.update(new_tokens)] for two dictionaries: the keys of
    [new_tokens] win. *)
Definition dict_update (tokens new_tokens : gmap string json) : gmap string json :=
  new_tokens ∪ tokens.

(** [tokens.update(new_tokens)] for whatever [response.json()] returned:
    a dictionary is merged in; [null], a boolean and a number cannot be
    iterated; an empty list or string brings nothing; each element of a
    non-empty string is one character where two items are wanted. *)
Definition tokens_update `{Runtime} (tokens : gmap string json) (new_tokens : json)
    : M (gmap string json) :=
  match new_tokens with
  | JObj fields => ret (dict_update tokens fields)
  | JArr [] | JStr EmptyString => ret tokens
  | JStr _ =>
      raise (ValueError ("dictionary update sequence element #0 has length 1; "
                         +:+ "2 is required"))
  | JArr _ => lift (update_from_iterable tokens new_tokens)
  | _ => raise (TypeError "object is not iterable")
  end.

(** [refresh_saved_tokens()]. The test of line 322 stands before the
    [try]: what it raises leaves the function. *)
Definition refresh_saved_tokens `{Runtime} (env : Env)
    : M (option (gmap string json)) :=
  do loaded <- load_saved_tokens;
  match loaded with
  | None => ret None
  | Some document =>
      if negb (json_truthy document) then ret None
      else
        do found <- lift (json_contains document "refresh_token");
        if negb found then ret None
        else
          try_except
            (do oauth_client <- lift (HubSpotOAuth_init env);
             do refresh_token <- json_subscript document "refresh_token";
             do new_tokens <- refresh_access_token oauth_client refresh_token;
             do tokens <- dict_get document;
             do tokens <- tokens_update tokens new_tokens;
             run open_for_writing;
             run json_dump tokens;
             ret (Some tokens))
            (λ _, ret None)
  end.

(** *** [main] *)

(** How the block guarded by [if saved_tokens:] ends: with a [return], or
    by falling through to the new flow. *)
Inductive Decision : Type :=
| Return (value : option (gmap string json))
| StartNewFlow.

(** The [try] of [main]. [choice] is the line [input()] reads; it is read
    only when the saved tokens passed the test. *)
Definition try_saved_tokens `{Runtime} (env : Env) (choice : string)
    (saved_tokens : gmap string json) : M Decision :=
  try_except
    (do oauth_client <- lift (HubSpotOAuth_init env);
     do access_token <- subscript saved_tokens "access_token";
     do api_test <- test_api_connection oauth_client access_token;
     if equals_str (api_test !! "status") "success" then
       let choice := PyStr.strip choice in
       if String.eqb choice "1" then ret (Return (Some saved_tokens))
       else if String.eqb choice "2" then
         do refreshed <- refresh_saved_tokens env;
         ret (Return refreshed)
       else if String.eqb choice "3" then ret StartNewFlow
       else ret (Return None)
     else ret StartNewFlow)
    (λ _, ret StartNewFlow).

(** [main()]. [None]: still in the wait loop of the new flow. The
    [.get] of line 353 stands before the [try]. *)
Definition main `{Runtime} (env : Env) (token_urlsafe : string)
    (incoming : list (list string)) (choice : string) (w : World)
    : option (result (option (gmap string json)) * World) :=
  match load_saved_tokens w with
  | (Ok (Some document), w) =>
      if json_truthy document then
        (* saved_tokens.get('user', 'N/A'), evaluated for printing *)
        match dict_get document w with
        | (Ok saved_tokens, w) =>
            match try_saved_tokens env choice saved_tokens w with
            | (Ok (Return value), w) => Some (Ok value, w)
            | (Ok StartNewFlow, w) =>
                interactive_oauth_flow env token_urlsafe incoming w
            | (Raise e, w) => Some (Raise e, w)
            end
        | (Raise e, w) => Some (Raise e, w)
        end
      else interactive_oauth_flow env token_urlsafe incoming w
  | (_, w) => interactive_oauth_flow env token_urlsafe incoming w
  end.

End HubspotOauth.

(** ** [hubspot_client.py] *)

Module HubspotClient.

Record HubSpotClient : Type := {
  base_url : string;
  access_token : string;
  client_headers : list (string * string)
}.

(** [HubSpotClient(access_token)] with a token given. *)
Definition HubSpotClient_init (token : string) : result HubSpotClient :=
  if PyStr.truthy (Some token)
  then Ok {| base_url := "https://api.hubapi.com";
             access_token := token;
             client_headers := [("Authorization", "Bearer " +:+ token);
                                ("Content-Type", "application/json")] |}
  else Raise (ValueError "No access token provided or found").

(** The keyword arguments the callers of [_make_request] pass on. *)
Record Kwargs : Type := {
  kw_headers : option (list (string * string));
  kw_params : list (string * json);
  kw_json : option json
}.

Definition unauthorized_message : string :=
  "Access token expired or invalid. Please refresh your tokens.".

Definition request_failed_message (status : Z) (body : string) : string :=
  "API request failed: " +:+ PyStr.of_int status +:+ " - " +:+ body.

Definition build_request (self : HubSpotClient) (verb endpoint : string)
    (kwargs : Kwargs) : Request :=
  {| method := verb;
     url := base_url self +:+ endpoint;
     headers := default (client_headers self) (kw_headers kwargs);
     params := kw_params kwargs;
     data := [];
     json_body := kw_json kwargs |}.

Definition _make_request `{Runtime} (self : HubSpotClient) (verb endpoint : string)
    (kwargs : Kwargs) : M json :=
  do response <- requests_request (build_request self verb endpoint kwargs);
  if (status_code response =? 401)%Z
  then raise (Exception unauthorized_message)
  else if (400 <=? status_code response)%Z
  then raise (Exception (request_failed_message (status_code response) (text response)))
  else response_json response.

(** [_load_access_token()]: [tokens.get('access_token')] of a readable
    credential file, otherwise [None]; the [except] also catches the
    [AttributeError] of a document that is not an object. *)
Definition _load_access_token `{Runtime} : M (option json) :=
  λ w, match tokens_file w with
       | Some content =>
           match json_loads content with
           | Some (JObj tokens) => (Ok (tokens !! "access_token"), w)
           | _ => (Ok None, w)
           end
       | None => (Ok None, w)
       end.

(** [HubSpotClient(access_token)] in full: a falsy argument makes the
    constructor look into the credential file. The token is only ever
    used inside f-strings, so the object keeps its [str()]. *)
Definition HubSpotClient_create `{Runtime} (token : option string) : M HubSpotClient :=
  do found <- (if PyStr.truthy token then ret (JStr <$> token)
               else _load_access_token);
  match found with
  | Some value =>
      if json_truthy value
      then ret {| base_url := "https://api.hubapi.com";
                  access_token := py_str value;
                  client_headers := [("Authorization", "Bearer " +:+ py_str value);
                                     ("Content-Type", "application/json")] |}
      else raise (ValueError "No access token provided or found")
  | None => raise (ValueError "No access token provided or found")
  end.

Definition only_params (query : list (string * json)) : Kwargs :=
  {| kw_headers := None; kw_params := query; kw_json := None |}.

Definition only_json (body : json) : Kwargs :=
  {| kw_headers := None; kw_params := []; kw_json := Some body |}.

Definition no_kwargs : Kwargs :=
  {| kw_headers := None; kw_params := []; kw_json := None |}.

(** [params = {'limit': limit}; if after: params['after'] = after] *)
Definition page_params (limit : Z) (after : option string) : list (string * json) :=
  ("limit", JNum limit)
    :: (if PyStr.truthy after then [("after", JStr (default EmptyString after))] else []).

Definition get_contacts `{Runtime} (self : HubSpotClient) (limit : Z)
    (after : option string) : M json :=
  _make_request self "GET" "/crm/v3/objects/contacts" (only_params (page_params limit after)).

Definition search_body (query : string) (limit : Z) : json :=
  JObj {[ "filterGroups" :=
            JArr [JObj {[ "filters" :=
                            JArr [JObj {[ "propertyName" := JStr "email";
                                          "operator" := JStr "CONTAINS_TOKEN";
                                          "value" := JStr query ]}] ]}];
          "properties" := JArr [JStr "email"; JStr "firstname";
                                JStr "lastname"; JStr "company"];
          "limit" := JNum limit ]}.

Definition search_contacts `{Runtime} (self : HubSpotClient) (query : string)
    (limit : Z) : M json :=
  _make_request self "POST" "/crm/v3/objects/contacts/search"
    (only_json (search_body query limit)).

Definition get_contact_by_id `{Runtime} (self : HubSpotClient) (contact_id : string)
    : M json :=
  _make_request self "GET" ("/crm/v3/objects/contacts/" +:+ contact_id) no_kwargs.

Definition create_contact `{Runtime} (self : HubSpotClient)
    (contact_data : gmap string json) : M json :=
  _make_request self "POST" "/crm/v3/objects/contacts" (only_json (JObj contact_data)).

Definition update_contact `{Runtime} (self : HubSpotClient) (contact_id : string)
    (contact_data : gmap string json) : M json :=
  _make_request self "PATCH" ("/crm/v3/objects/contacts/" +:+ contact_id)
    (only_json (JObj contact_data)).

(** [delete_contact]: any exception becomes [False]. *)
Definition delete_contact `{Runtime} (self : HubSpotClient) (contact_id : string)
    : M bool :=
  try_except
    (run _make_request self "DELETE" ("/crm/v3/objects/contacts/" +:+ contact_id)
           no_kwargs;
     ret true)
    (λ _, ret false).

Definition get_contact_notes `{Runtime} (self : HubSpotClient) (contact_id : string)
    (limit : Z) : M json :=
  _make_request self "GET" "/crm/v3/objects/notes"
    (only_params [("associations", JStr "contacts");
                  ("after", JStr contact_id);
                  ("limit", JNum limit)]).

Definition create_note `{Runtime} (self : HubSpotClient)
    (note_data : gmap string json) : M json :=
  _make_request self "POST" "/crm/v3/objects/notes" (only_json (JObj note_data)).

Definition get_deals `{Runtime} (self : HubSpotClient) (limit : Z)
    (after : option string) : M json :=
  _make_request self "GET" "/crm/v3/objects/deals" (only_params (page_params limit after)).

Definition create_deal `{Runtime} (self : HubSpotClient)
    (deal_data : gmap string json) : M json :=
  _make_request self "POST" "/crm/v3/objects/deals" (only_json (JObj deal_data)).

Definition get_companies `{Runtime} (self : HubSpotClient) (limit : Z)
    (after : option string) : M json :=
  _make_request self "GET" "/crm/v3/objects/companies"
    (only_params (page_params limit after)).

Definition create_company `{Runtime} (self : HubSpotClient)
    (company_data : gmap string json) : M json :=
  _make_request self "POST" "/crm/v3/objects/companies" (only_json (JObj company_data)).

Definition get_user_info `{Runtime} (self : HubSpotClient) : M json :=
  _make_request self "GET" ("/oauth/v1/access-tokens/" +:+ access_token self) no_kwargs.

(** [test_connection]: the exception of [get_contacts(limit=1)], if any,
    becomes the message. *)
Definition test_connection `{Runtime} (self : HubSpotClient) : M (gmap string json) :=
  try_except
    (run get_contacts self 1 None;
     ret {[ "status" := JStr "success";
            "message" := JStr "API connection successful" ]})
    (λ e, ret {[ "status" := JStr "error"; "message" := JStr (exn_str e) ]}).

(** The calls a user of the client can make, to speak about all of them
    at once. *)
Inductive Call : Type :=
| GetContacts (limit : Z) (after : option string)
| SearchContacts (query : string) (limit : Z)
| GetContactById (contact_id : string)
| CreateContact (contact_data : gmap string json)
| UpdateContact (contact_id : string) (contact_data : gmap string json)
| GetContactNotes (contact_id : string) (limit : Z)
| CreateNote (note_data : gmap string json)
| GetDeals (limit : Z) (after : option string)
| CreateDeal (deal_data : gmap string json)
| GetCompanies (limit : Z) (after : option string)
| CreateCompany (company_data : gmap string json)
| GetUserInfo.

Definition perform `{Runtime} (self : HubSpotClient) (call : Call)
    : M json :=
  match call with
  | GetContacts limit after => get_contacts self limit after
  | SearchContacts query limit => search_contacts self query limit
  | GetContactById contact_id => get_contact_by_id self contact_id
  | CreateContact contact_data => create_contact self contact_data
  | UpdateContact contact_id contact_data => update_contact self contact_id contact_data
  | GetContactNotes contact_id limit => get_contact_notes self contact_id limit
  | CreateNote note_data => create_note self note_data
  | GetDeals limit after => get_deals self limit after
  | CreateDeal deal_data => create_deal self deal_data
  | GetCompanies limit after => get_companies self limit after
  | CreateCompany company_data => create_company self company_data
  | GetUserInfo => get_user_info self
  end.

End HubspotClient.

(** ** [embedding_server.py] *)

Module EmbeddingServer.

Definition MODEL_NAME : string := "sentence-transformers/all-MiniLM-L6-v2".

(** [Union[str, List[str]]] *)
Inductive Input : Type :=
| Single (s : string)
| Batch (l : list string).

Record EmbeddingRequest : Type := { input : Input }.

(** One entry of [data]; [V] is the type of an embedding vector. *)
Record Entry (V : Type) : Type := {
  object : string;
  embedding : V;
  index : nat
}.
Arguments object {V} _.
Arguments embedding {V} _.
Arguments index {V} _.

Record Usage : Type := {
  prompt_tokens : nat;
  total_tokens : nat
}.

Record EmbeddingResponse (V : Type) : Type := {
  data : list (Entry V);
  model : string;
  usage : Usage
}.
Arguments data {V} _.
Arguments model {V} _.
Arguments usage {V} _.

Record HTTPException : Type := {
  http_status : Z;
  detail : string
}.

(** The loaded [SentenceTransformer]: [encode texts] is
    [model.encode(texts, convert_to_tensor=False)] turned into a list of
    rows, or the exception it raises. *)
Class SentenceTransformer (V : Type) : Type :=
  encode : list string → result (list V).

Definition create_embeddings {V} `{SentenceTransformer V}
    (request : EmbeddingRequest) : HTTPException + EmbeddingResponse V :=
  let texts := match input request with
               | Single s => [s]
               | Batch l => l
               end in
  match encode texts with
  | Ok embedding_list =>
      let data := imap (λ i e, {| object := "embedding";
                                  embedding := e;
                                  index := i |}) embedding_list in
      let total_tokens := foldr Nat.add 0 (PyStr.word_count <$> texts) in
      inr {| data := data;
             model := MODEL_NAME;
             usage := {| prompt_tokens := total_tokens;
                         total_tokens := total_tokens |} |}
  | Raise e =>
      inl {| http_status := 500;
             detail := "Embedding generation failed: " +:+ exn_str e |}
  end.

(** The legacy alias [POST /embeddings]. *)
Definition create_embeddings_legacy {V} `{SentenceTransformer V}
    (request : EmbeddingRequest) : HTTPException + EmbeddingResponse V :=
  create_embeddings request.

End EmbeddingServer.

(** ** Runtimes to evaluate the flows on *)

Module Fixtures.

Definition render_scalar (v : json) : string :=
  match v with
  | JNull => "null"
  | JBool true => "true"
  | JBool false => "false"
  | JNum z => PyStr.of_int z
  | JFloat _ => "float"
  | JStr s => "'" +:+ s +:+ "'"
  | JArr _ => "[..]"
  | JObj _ => "{..}"
  end.

Definition render (v : json) : string :=
  match v with
  | JArr items => "[" +:+ PyStr.join "," (render_scalar <$> items) +:+ "]"
  | other => render_scalar other
  end.

(** A runtime whose server answers by [answer] whatever was sent before,
    whose JSON parser knows the [documents] listed, whose serializer
    writes the fields of a record one level deep, whose [urlsplit]
    refuses every network location with a bracket in it, and whose
    [dict.update] finds no pair in a list. *)
Definition reading (answer : Request → Response)
    (documents : list (string * json)) : Runtime :=
  {| respond := λ _ req, answer req;
     json_loads := λ content,
       snd <$> find (λ doc, String.eqb content doc.1) documents;
     json_dumps := λ record,
       "{" +:+ PyStr.join ","
                 ((λ kv, kv.1 +:+ ":" +:+ render kv.2) <$> map_to_list record)
           +:+ "}";
     py_repr := render;
     urlsplit_accepts := λ url, negb (PyStr.occurs "[" url || PyStr.occurs "]" url);
     update_from_iterable := λ _ _,
       Raise (TypeError "cannot convert dictionary update sequence element #0 to a sequence") |}.

(** The same, for documents that are objects. *)
Definition scripted (answer : Request → Response)
    (documents : list (string * gmap string json)) : Runtime :=
  reading answer ((λ doc, (doc.1, JObj doc.2)) <$> documents).

Definition credentials : HubspotOauth.Env :=
  {| HubspotOauth.HUBSPOT_CLIENT_ID := Some "client-1";
     HubspotOauth.HUBSPOT_CLIENT_SECRET := Some "secret-1";
     HubspotOauth.HUBSPOT_REDIRECT_URI := None |}.

Definition empty_world : World := {| tokens_file := None; sent := [] |}.

(** [HubSpotOAuth()] under [credentials]. *)
Definition oauth_client : HubspotOauth.HubSpotOAuth :=
  {| HubspotOauth.client_id := "client-1";
     HubspotOauth.client_secret := "secret-1";
     HubspotOauth.redirect_uri := "http://localhost:4000/hubspot/oauth/callback";
     HubspotOauth.authorize_url := "https://app.hubspot.com/oauth/authorize";
     HubspotOauth.token_url := "https://api.hubapi.com/oauth/v1/token";
     HubspotOauth.user_info_url := "https://api.hubapi.com/oauth/v1/access-tokens";
     HubspotOauth.default_scopes := ["crm.objects.contacts.read";
                                     "crm.objects.contacts.write";
                                     "crm.schemas.contacts.read";
                                     "crm.schemas.contacts.write";
                                     "oauth"] |}.

(** A credential file as the interactive flow writes it. The file holds
    the text [saved], which the parser of the runtimes below reads as
    [saved_tokens]. *)
Definition saved_tokens : gmap string json :=
  {[ "access_token" := JStr "access-0";
     "refresh_token" := JStr "refresh-0";
     "expires_in" := JNum 1800;
     "user" := JStr "advisor@example.com";
     "scopes" := JArr [JStr "oauth"] ]}.

Definition saved_world : World := {| tokens_file := Some "saved"; sent := [] |}.

(** A token endpoint that rejects the refresh token. *)
Definition rejecting : Runtime :=
  scripted (λ _, {| status_code := 400; text := "BAD_REFRESH_TOKEN" |})
           [("saved", saved_tokens)].

(** A 200 answer to a refresh, without [refresh_token], with the
    [token_type] HubSpot sends and with a [user]. *)
Definition refresh_body : gmap string json :=
  {[ "token_type" := JStr "bearer";
     "access_token" := JStr "access-1";
     "expires_in" := JNum 1800;
     "user" := JStr "someone.else@example.com" ]}.

Definition refreshing : Runtime :=
  scripted (λ _, {| status_code := 200; text := "refreshed" |})
           [("saved", saved_tokens); ("refreshed", refresh_body)].

(** What [refresh_saved_tokens] writes under [refreshing]. *)
Definition merged_tokens : gmap string json :=
  {[ "access_token" := JStr "access-1";
     "refresh_token" := JStr "refresh-0";
     "expires_in" := JNum 1800;
     "user" := JStr "someone.else@example.com";
     "scopes" := JArr [JStr "oauth"];
     "token_type" := JStr "bearer" ]}.

(** A HubSpot that grants everything: the token endpoint answers with
    [token_body], which has no [scope], the access-token endpoint with
    [user_body]. *)
Definition token_body : gmap string json :=
  {[ "access_token" := JStr "access-0";
     "refresh_token" := JStr "refresh-0";
     "expires_in" := JNum 1800 ]}.

Definition user_body : gmap string json :=
  {[ "user" := JStr "advisor@example.com" ]}.

Definition granting : Runtime :=
  scripted (λ req, if String.eqb (method req) "POST"
                   then {| status_code := 200; text := "token" |}
                   else {| status_code := 200; text := "user" |})
           [("token", token_body); ("user", user_body)].

Definition callback_with_code : string :=
  "/hubspot/oauth/callback?code=abc123&state=state-1".

(** The world after the flow under [granting]: the record is on disk,
    three requests have gone out. *)
Definition granted_world : World :=
  {| tokens_file :=
       Some ("{scopes:[''],user:'advisor@example.com',expires_in:1800,"
             +:+ "access_token:'access-0',refresh_token:'refresh-0'}");
     sent := [HubspotOauth.exchange_request oauth_client "abc123";
              @HubspotOauth.user_info_request granting oauth_client (JStr "access-0");
              @HubspotOauth.test_request granting (JStr "access-0")] |}.

Definition granted_summary : gmap string json :=
  {[ "access_token" := JStr "access-0";
     "refresh_token" := JStr "refresh-0";
     "expires_in" := JNum 1800;
     "user_info" := JObj user_body;
     "api_test" := JObj {[ "status" := JStr "success";
                           "message" := JStr "API connection successful" ]} ]}.

(** A resource API that serves contacts, has seen the token expire for
    deals and knows no other path. *)
Definition client : HubspotClient.HubSpotClient :=
  {| HubspotClient.base_url := "https://api.hubapi.com";
     HubspotClient.access_token := "access-0";
     HubspotClient.client_headers := [("Authorization", "Bearer access-0");
                                      ("Content-Type", "application/json")] |}.

Definition no_kwargs : HubspotClient.Kwargs :=
  {| HubspotClient.kw_headers := None;
     HubspotClient.kw_params := [];
     HubspotClient.kw_json := None |}.



(** [refreshing] with a parser that also reads the text its serializer
    writes for [merged_tokens]. *)
Definition merged_text : string :=
  "{scopes:['oauth'],user:'someone.else@example.com',expires_in:1800,"
  +:+ "access_token:'access-1',refresh_token:'refresh-0',token_type:'bearer'}".

Definition refreshing_readable : Runtime :=
  scripted (λ _, {| status_code := 200; text := "refreshed" |})
           [("saved", saved_tokens); ("refreshed", refresh_body);
            (merged_text, merged_tokens)].

(** [granting] with a parser that also reads the file the flow writes. *)
Definition granted_record : gmap string json :=
  {[ "access_token" := JStr "access-0";
     "refresh_token" := JStr "refresh-0";
     "expires_in" := JNum 1800;
     "user" := JStr "advisor@example.com";
     "scopes" := JArr [JStr EmptyString] ]}.

Definition granted_text : string :=
  "{scopes:[''],user:'advisor@example.com',expires_in:1800,"
  +:+ "access_token:'access-0',refresh_token:'refresh-0'}".

Definition granting_readable : Runtime :=
  scripted (λ req, if String.eqb (method req) "POST"
                   then {| status_code := 200; text := "token" |}
                   else {| status_code := 200; text := "user" |})
           [("token", token_body); ("user", user_body);
            (granted_text, granted_record)].

(** A token endpoint that sends [scope: null]. *)
Definition null_scope_body : gmap string json :=
  {[ "access_token" := JStr "access-0";
     "refresh_token" := JStr "refresh-0";
     "expires_in" := JNum 1800;
     "scope" := JNull ]}.

Definition null_scoping : Runtime :=
  scripted (λ req, if String.eqb (method req) "POST"
                   then {| status_code := 200; text := "token" |}
                   else {| status_code := 200; text := "user" |})
           [("token", null_scope_body); ("user", user_body)].

(** [HubSpotClient("access-0")]'s request for [get_contacts(limit=1)]. *)
Definition probe : Request :=
  HubspotClient.build_request client "GET" "/crm/v3/objects/contacts"
    (HubspotClient.only_params [("limit", JNum 1)]).

(** A resource API that answers every request with an empty 204. *)
Definition no_content : Runtime :=
  scripted (λ _, {| status_code := 204; text := EmptyString |}) [].

(** A token endpoint behind a gateway that answers 200 with a page. *)
Definition gateway_page : Runtime :=
  scripted (λ _, {| status_code := 200; text := "<html>Bad gateway</html>" |}) [].



(** Credential files that hold JSON, but no object. *)
Definition odd_files : Runtime :=
  reading (λ _, {| status_code := 200; text := "refreshed" |})
          [("saved", JObj saved_tokens); ("refreshed", JObj refresh_body);
           ("5", JNum 5); ("[1]", JArr [JNum 1]); ("[]", JArr []);
           ("null", JNull)].


(** A model that embeds a text as its length. *)
Definition length_model : EmbeddingServer.SentenceTransformer nat :=
  λ texts, Ok (String.length <$> texts).

End Fixtures.

(** * Properties *)

(** ** Strings *)

Lemma append_nil_l (s : string) : EmptyString +:+ s = s.
Proof. reflexivity. Qed.

Lemma append_cons (c : ascii) (a b : string) : String c a +:+ b = String c (a +:+ b).
Proof. reflexivity. Qed.

Lemma append_assoc (a b c : string) : (a +:+ b) +:+ c = a +:+ (b +:+ c).
Proof.
  induction a as [|x a IH]; [reflexivity |].
  rewrite !append_cons. f_equal. exact IH.
Qed.

Create Rewrite HintDb pystr.
#[local] Hint Rewrite append_nil_l append_cons append_assoc : pystr.

Lemma split_of_empty (sep : ascii) : PyStr.split sep EmptyString = [EmptyString].
Proof. reflexivity. Qed.

Lemma split_nonempty (sep : ascii) (s : string) : PyStr.split sep s ≠ [].
Proof.
  destruct s as [|c s]; simpl; [discriminate |].
  destruct (Ascii.eqb c sep); [discriminate |].
  destruct (PyStr.split sep s); discriminate.
Qed.

(** ** [embedding_server.py] *)

Section Embeddings.
Import EmbeddingServer.
Context {V : Type} `{SentenceTransformer V}.

Lemma create_embeddings_ok (texts : list string) (rows : list V) :
  encode texts = Ok rows →
  ∃ response, create_embeddings {| input := Batch texts |} = inr response
              ∧ data response
                = imap (λ i e, {| object := "embedding"; embedding := e; index := i |}) rows
              ∧ model response = MODEL_NAME.
Proof.
  intros Hrows. unfold create_embeddings. simpl. rewrite Hrows.
  eexists. split; [reflexivity |]. split; reflexivity.
Qed.

(** C8. For a batch of N texts for which the model returns its N rows,
    the response has exactly N entries, and entry [i] has index [i] and
    carries row [i], the embedding of the [i]-th text. *)
Theorem create_embeddings_indexed (texts : list string) (rows : list V) :
  encode texts = Ok rows →
  length rows = length texts →
  ∃ response,
    create_embeddings {| input := Batch texts |} = inr response
    ∧ length (data response) = length texts
    ∧ ∀ i, i < length texts →
           ∃ row, rows !! i = Some row
                  ∧ data response !! i
                    = Some {| object := "embedding"; embedding := row; index := i |}.
Proof.
  intros Hrows Hlen.
  destruct (create_embeddings_ok texts rows Hrows) as (response & Hresp & Hdata & _).
  exists response. split; [exact Hresp |]. rewrite Hdata. split.
  - by rewrite length_imap.
  - intros i Hi. rewrite <- Hlen in Hi.
    destruct (lookup_lt_is_Some_2 rows i Hi) as [row Hrow].
    exists row. split; [exact Hrow |].
    by rewrite list_lookup_imap, Hrow.
Qed.

(** C9. A single string is normalized to a one-element list before the
    model is called, so the endpoint answers it exactly as it answers the
    one-element batch; in particular the first entries agree. *)
Theorem create_embeddings_single_is_batch (s : string) :
  create_embeddings {| input := Single s |}
  = create_embeddings {| input := Batch [s] |}
  ∧ (∀ r1 r2,
       create_embeddings {| input := Single s |} = inr r1 →
       create_embeddings {| input := Batch [s] |} = inr r2 →
       data r1 !! 0 = data r2 !! 0).
Proof.
  split; [reflexivity |].
  intros r1 r2 H1 H2.
  change (create_embeddings {| input := Batch [s] |})
    with (create_embeddings {| input := Single s |}) in H2.
  congruence.
Qed.

End Embeddings.

Lemma create_embeddings_indexed_witness :
  ∃ response,
    @EmbeddingServer.create_embeddings nat Fixtures.length_model
      {| EmbeddingServer.input := EmbeddingServer.Batch ["alpha"; "be"; "gamma delta"] |}
    = inr response
    ∧ length (EmbeddingServer.data response) = 3
    ∧ ∀ i, i < 3 →
           ∃ row, [5; 2; 11] !! i = Some row
                  ∧ EmbeddingServer.data response !! i
                    = Some {| EmbeddingServer.object := "embedding";
                              EmbeddingServer.embedding := row;
                              EmbeddingServer.index := i |}.
Proof.
  apply (@create_embeddings_indexed nat Fixtures.length_model
           ["alpha"; "be"; "gamma delta"] [5; 2; 11]); reflexivity.
Defined.

(** ** [urllib.parse] *)

Section Quoting.
Import Urllib.

Lemma quote_plus_byte_encoded (c : ascii) (rest : string) :
  percent_encoded rest = true →
  percent_encoded (quote_plus_byte c +:+ rest) = true.
Proof.
  intros Hrest.
  destruct c as [[] [] [] [] [] [] [] []];
    unfold quote_plus_byte; simpl; autorewrite with pystr; simpl;
    rewrite Hrest; reflexivity.
Qed.

(** Whatever the text, [quote_plus] yields only unreserved characters,
    [+] and well-formed [%XX] escapes. *)
Lemma quote_plus_encoded (s : string) : percent_encoded (quote_plus s) = true.
Proof.
  induction s as [|c s IH]; [reflexivity |].
  simpl. by apply quote_plus_byte_encoded.
Qed.

Lemma unquote_plus_quote_plus_byte (c : ascii) (rest : string) :
  unquote_plus (quote_plus_byte c +:+ rest) = String c (unquote_plus rest).
Proof.
  destruct c as [[] [] [] [] [] [] [] []];
    unfold quote_plus_byte; simpl; autorewrite with pystr; reflexivity.
Qed.

(** The encoding loses nothing: decoding gives the text back. *)
Lemma unquote_plus_quote_plus (s : string) : unquote_plus (quote_plus s) = s.
Proof.
  induction s as [|c s IH]; [reflexivity |].
  simpl. rewrite unquote_plus_quote_plus_byte. by rewrite IH.
Qed.

End Quoting.

(** ** [HubSpotOAuth.get_authorization_url] *)

Section AuthorizationUrl.
Import HubspotOauth Urllib.

(** The URL spelled out: the five parameters in the order of the
    dictionary, every value passed through [quote_plus]. *)
Lemma get_authorization_url_shape (self : HubSpotOAuth)
    (scopes : option (list string)) (state token : string) :
  get_authorization_url self scopes (Some state) token
  = (authorize_url self +:+ "?client_id=" +:+ quote_plus (client_id self)
     +:+ "&redirect_uri=" +:+ quote_plus (redirect_uri self) +:+ "&")
    +:+ "scope=" +:+ quote_plus (PyStr.join " " (default (default_scopes self) scopes))
    +:+ "&response_type=code&state=" +:+ quote_plus state.
Proof.
  unfold get_authorization_url, urlencode, authorization_params, PyStr.join.
  destruct scopes as [given|]; simpl; autorewrite with pystr; reflexivity.
Qed.

(** C7. With [state] supplied the URL is a function of the client, the
    scopes and the state alone (the random source is not used); it is
    [authorize_url?client_id=..&redirect_uri=..&scope=..&response_type=code&state=..]
    with every value percent-encoded; and two calls that differ in their
    scopes only give URLs with the same text before and the same text
    after the value of [scope]. *)
Theorem get_authorization_url_deterministic (self : HubSpotOAuth) (state : string) :
  (∀ scopes token1 token2,
      get_authorization_url self scopes (Some state) token1
      = get_authorization_url self scopes (Some state) token2)
  ∧ (∀ scopes token,
        get_authorization_url self (Some scopes) (Some state) token
        = authorize_url self +:+ "?"
          +:+ "client_id=" +:+ quote_plus (client_id self)
          +:+ "&redirect_uri=" +:+ quote_plus (redirect_uri self)
          +:+ "&scope=" +:+ quote_plus (PyStr.join " " scopes)
          +:+ "&response_type=code"
          +:+ "&state=" +:+ quote_plus state
        ∧ percent_encoded (quote_plus (client_id self)) = true
        ∧ percent_encoded (quote_plus (redirect_uri self)) = true
        ∧ percent_encoded (quote_plus (PyStr.join " " scopes)) = true
        ∧ percent_encoded (quote_plus state) = true
        ∧ unquote_plus (quote_plus (PyStr.join " " scopes)) = PyStr.join " " scopes)
  ∧ (∀ scopes1 scopes2 token1 token2,
        ∃ before after,
          get_authorization_url self (Some scopes1) (Some state) token1
          = before +:+ "scope=" +:+ quote_plus (PyStr.join " " scopes1) +:+ after
          ∧ get_authorization_url self (Some scopes2) (Some state) token2
            = before +:+ "scope=" +:+ quote_plus (PyStr.join " " scopes2) +:+ after).
Proof.
  split; [reflexivity |]. split.
  - intros scopes token. split.
    + rewrite get_authorization_url_shape. simpl.
      autorewrite with pystr. reflexivity.
    + repeat split; try apply quote_plus_encoded.
      apply unquote_plus_quote_plus.
  - intros scopes1 scopes2 token1 token2.
    eexists _, _. split; apply get_authorization_url_shape.
Qed.

End AuthorizationUrl.

Example get_authorization_url_example :
  (do oauth_client <- lift (HubspotOauth.HubSpotOAuth_init Fixtures.credentials);
   ret (HubspotOauth.get_authorization_url oauth_client
          (Some ["oauth"; "crm.objects.contacts.read"]) (Some "x/y z") "unused"))
    Fixtures.empty_world
  = (Ok ("https://app.hubspot.com/oauth/authorize?client_id=client-1"
         +:+ "&redirect_uri=http%3A%2F%2Flocalhost%3A4000%2Fhubspot%2Foauth%2Fcallback"
         +:+ "&scope=oauth+crm.objects.contacts.read&response_type=code&state=x%2Fy+z"),
     Fixtures.empty_world).
Proof. vm_compute. reflexivity. Qed.

(** ** The callback listener and the wait loop *)

Section Callback.
Import HubspotOauth Urllib.
Context `{Runtime}.


(** A request with neither: nothing is written to the socket and the
    server attributes are all [None]. *)
Lemma handle_request_neither (path query : string) (server : Captured) :
  urlparse urlsplit_accepts path = Ok query →
  parse_qs query !! "code" = None →
  parse_qs query !! "error" = None →
  handle_request path server = (None, nothing_captured).
Proof.
  intros Hquery Hcode Herror. unfold handle_request, do_GET.
  rewrite Hquery, Hcode, Herror. reflexivity.
Qed.

(** A request with a [code]: the success page goes out and the first
    [code] is recorded, with the first [state] if there is one. *)
Lemma handle_request_code (path query : string) (values : list string)
    (server : Captured) :
  urlparse urlsplit_accepts path = Ok query →
  parse_qs query !! "code" = Some values →
  handle_request path server
  = (Some {| reply_status := 200;
             reply_headers := [("Content-type", "text/html")];
             reply_body := success_page |},
     {| auth_code := head values;
        state := head (default [] (parse_qs query !! "state"));
        error := None |}).
Proof.
  intros Hquery Hcode. unfold handle_request, do_GET.
  rewrite Hquery, Hcode. reflexivity.
Qed.

(** A target [urlparse] refuses: the handler dies before it has sent or
    assigned anything. *)
Lemma handle_request_refused (path : string) (e : exn) (server : Captured) :
  urlparse urlsplit_accepts path = Raise e →
  handle_request path server = (None, server).
Proof.
  intros Hquery. unfold handle_request, do_GET. by rewrite Hquery.
Qed.

(** A target without network location is never refused. *)
Lemma urlparse_without_netloc (path : string) :
  may_have_netloc path = false →
  urlparse urlsplit_accepts path = Ok (urlparse_query path).
Proof. intros Hplain. unfold urlparse. by rewrite Hplain. Qed.

(** Serving a batch that ends with [path]: [path] is served last. *)
Lemma serve_batch_last (batch : list string) (path : string) (server : Captured) :
  foldl (λ srv p, (handle_request p srv).2) server (batch ++ [path])
  = (handle_request path
       (foldl (λ srv p, (handle_request p srv).2) server batch)).2.
Proof. rewrite foldl_app. reflexivity. Qed.

(** While earlier sleeps have not ended the loop, the loop goes on with
    what comes next. *)
Lemma wait_for_callback_app (earlier later : list (list string)) (server : Captured) :
  wait_for_callback server earlier = None →
  ∃ server', still_waiting server' = true
             ∧ wait_for_callback server (earlier ++ later)
               = wait_for_callback server' later.
Proof.
  revert server. induction earlier as [|batch earlier IH]; intros server Hnone.
  - simpl in Hnone. destruct (still_waiting server) eqn:Hw; [| discriminate].
    exists server. split; [exact Hw | reflexivity].
  - simpl in Hnone. simpl. destruct (still_waiting server); [| discriminate].
    apply IH. exact Hnone.
Qed.

(** Once the server holds a code or an error the loop has left. *)
Lemma wait_for_callback_left (server : Captured) (later : list (list string)) :
  still_waiting server = false → wait_for_callback server later = Some server.
Proof. intros Hleft. destruct later; simpl; by rewrite Hleft. Qed.

End Callback.

Section CallbackOutcomes.
Import HubspotOauth Urllib.
Context `{Runtime}.


(** Without [code] and without [error] in the query the handler writes
    nothing, and a wait loop that has only seen such requests has not
    left. *)
Lemma wait_for_callback_neither (paths : list string) :
  Forall (λ path, ∃ query, urlparse urlsplit_accepts path = Ok query
                           ∧ parse_qs query !! "code" = None
                           ∧ parse_qs query !! "error" = None) paths →
  wait_for_callback start_callback_server ((λ path, [path]) <$> paths) = None.
Proof.
  induction 1 as [|path paths (query & Hquery & Hcode & Herror) _ IH]; [reflexivity |].
  simpl. rewrite (handle_request_neither path query _ Hquery Hcode Herror). exact IH.
Qed.

(** C1 (at [GET /hubspot/oauth/callback], a request without query
    string). The handler sends nothing, not even a status line, and
    assigns [None] to all three server attributes; the wait loop has not
    left after it and the flow is still waiting. *)
Theorem callback_without_code_or_error_is_silent (server : Captured)
    (token : string) (w : World) :
  handle_request "/hubspot/oauth/callback" server = (None, nothing_captured)
  ∧ still_waiting (handle_request "/hubspot/oauth/callback" server).2 = true
  ∧ wait_for_callback start_callback_server [["/hubspot/oauth/callback"]] = None
  ∧ interactive_oauth_flow Fixtures.credentials token
      [["/hubspot/oauth/callback"]] w = None.
Proof.
  assert (Hsilent : ∀ srv, handle_request "/hubspot/oauth/callback" srv
                           = (None, nothing_captured)).
  { intros srv. apply (handle_request_neither _ EmptyString);
      [by apply urlparse_without_netloc | vm_compute; reflexivity..]. }
  split; [apply Hsilent |]. rewrite Hsilent. split; [reflexivity |].
  assert (Hloop : wait_for_callback start_callback_server
                    [["/hubspot/oauth/callback"]] = None).
  { apply (wait_for_callback_neither ["/hubspot/oauth/callback"]).
    repeat constructor. exists EmptyString.
    split; [by apply urlparse_without_netloc |].
    split; vm_compute; reflexivity. }
  split; [exact Hloop |].
  unfold interactive_oauth_flow. simpl HubSpotOAuth_init. cbv iota beta.
  rewrite Hloop. reflexivity.
Qed.

End CallbackOutcomes.



(** ** The token endpoint *)

Ltac run_monad :=
  unfold bind, try_except, lift, ret, raise, requests_request, response_json,
    open_for_writing, json_dump in *; simpl in *.

Section TokenEndpoint.
Import HubspotOauth.
Context `{Runtime}.

(** What one call of [exchange_code_for_token] does. *)
Lemma exchange_code_for_token_run (self : HubSpotOAuth) (code : string) (w : World) :
  let response := respond (sent w) (exchange_request self code) in
  exchange_code_for_token self code w
  = (if (status_code response =? 200)%Z
     then match json_loads (text response) with
          | Some body => Ok body
          | None => Raise (JSONDecodeError "Expecting value")
          end
     else Raise (Exception ("Token exchange failed: "
                            +:+ PyStr.of_int (status_code response)
                            +:+ " - " +:+ text response)),
     {| tokens_file := tokens_file w;
        sent := sent w ++ [exchange_request self code] |}).
Proof.
  unfold exchange_code_for_token. run_monad.
  destruct (status_code _ =? 200)%Z; [| reflexivity].
  run_monad. destruct (json_loads _); reflexivity.
Qed.


(** What one call of [refresh_access_token] does. *)
Lemma refresh_access_token_run (self : HubSpotOAuth) (refresh_token : json)
    (w : World) :
  let response := respond (sent w) (refresh_request self refresh_token) in
  refresh_access_token self refresh_token w
  = (if (status_code response =? 200)%Z
     then match json_loads (text response) with
          | Some body => Ok body
          | None => Raise (JSONDecodeError "Expecting value")
          end
     else Raise (Exception ("Token refresh failed: "
                            +:+ PyStr.of_int (status_code response)
                            +:+ " - " +:+ text response)),
     {| tokens_file := tokens_file w;
        sent := sent w ++ [refresh_request self refresh_token] |}).
Proof.
  unfold refresh_access_token. run_monad.
  destruct (status_code _ =? 200)%Z; [| reflexivity].
  run_monad. destruct (json_loads _); reflexivity.
Qed.

End TokenEndpoint.

(** ** Refreshing the saved tokens *)

Section Refresh.
Import HubspotOauth.
Context `{Runtime}.

Lemma dict_truthy_lookup (d : gmap string json) (key : string) (v : json) :
  d !! key = Some v → dict_truthy d = true.
Proof.
  intros Hkey. unfold dict_truthy.
  rewrite bool_decide_eq_false_2; [reflexivity |].
  intros ->. by rewrite lookup_empty in Hkey.
Qed.

(** With a credential file that holds an object with a [refresh_token]
    and with credentials in the environment, [refresh_saved_tokens] is one
    call of [refresh_access_token] followed, if that call returns, by the
    merge and, if the merge returns, by the rewrite of the file. *)
Lemma refresh_saved_tokens_run (env : Env) (w : World) (content : string)
    (tokens : gmap string json) (refresh_token : json) (oauth_client : HubSpotOAuth) :
  tokens_file w = Some content →
  json_loads content = Some (JObj tokens) →
  tokens !! "refresh_token" = Some refresh_token →
  HubSpotOAuth_init env = Ok oauth_client →
  refresh_saved_tokens env w
  = match refresh_access_token oauth_client refresh_token w with
    | (Ok new_tokens, w') =>
        match tokens_update tokens new_tokens w' with
        | (Ok merged, w'') =>
            (Ok (Some merged),
             {| tokens_file := Some (json_dumps merged); sent := sent w'' |})
        | (Raise _, w'') => (Ok None, w'')
        end
    | (Raise _, w') => (Ok None, w')
    end.
Proof.
  intros Hfile Hload Hkey Hinit.
  unfold refresh_saved_tokens, load_saved_tokens, json_subscript, subscript.
  unfold bind at 1. rewrite Hfile, Hload.
  change (json_truthy (JObj tokens)) with (dict_truthy tokens).
  rewrite (dict_truthy_lookup _ _ _ Hkey).
  unfold json_contains. rewrite Hkey.
  rewrite bool_decide_eq_true_2 by eauto.
  unfold try_except, bind, lift, ret, dict_get. rewrite Hinit. simpl.
  destruct (refresh_access_token oauth_client refresh_token w) as [[new_tokens|e] w'];
    [| reflexivity].
  destruct (tokens_update tokens new_tokens w') as [[merged|e] w'']; reflexivity.
Qed.

(** C3. When the token endpoint answers the refresh request with a
    status other than 200, [refresh_access_token] raises with the status
    code and the body in its message, [refresh_saved_tokens] returns
    [None], and the credential file is exactly what it was before. *)
Theorem refresh_failure_keeps_saved_tokens (env : Env) (w : World)
    (content : string) (tokens : gmap string json) (refresh_token : json)
    (oauth_client : HubSpotOAuth) :
  tokens_file w = Some content →
  json_loads content = Some (JObj tokens) →
  tokens !! "refresh_token" = Some refresh_token →
  HubSpotOAuth_init env = Ok oauth_client →
  let response := respond (sent w) (refresh_request oauth_client refresh_token) in
  status_code response ≠ 200%Z →
  (refresh_access_token oauth_client refresh_token w).1
  = Raise (Exception ("Token refresh failed: "
                      +:+ PyStr.of_int (status_code response)
                      +:+ " - " +:+ text response))
  ∧ (refresh_saved_tokens env w).1 = Ok None
  ∧ tokens_file (refresh_saved_tokens env w).2 = Some content.
Proof.
  intros Hfile Hload Hkey Hinit response Hstatus.
  rewrite (refresh_saved_tokens_run env w content tokens refresh_token oauth_client)
    by assumption.
  rewrite refresh_access_token_run. fold response.
  apply Z.eqb_neq in Hstatus. rewrite Hstatus. simpl.
  repeat split. exact Hfile.
Qed.


End Refresh.

Lemma refresh_failure_keeps_saved_tokens_witness :
  (@HubspotOauth.refresh_access_token Fixtures.rejecting Fixtures.oauth_client
     (JStr "refresh-0") Fixtures.saved_world).1
  = Raise (Exception "Token refresh failed: 400 - BAD_REFRESH_TOKEN")
  ∧ (@HubspotOauth.refresh_saved_tokens Fixtures.rejecting Fixtures.credentials
       Fixtures.saved_world).1 = Ok None
  ∧ tokens_file (@HubspotOauth.refresh_saved_tokens Fixtures.rejecting
                   Fixtures.credentials Fixtures.saved_world).2 = Some "saved".
Proof.
  apply (@refresh_failure_keeps_saved_tokens Fixtures.rejecting Fixtures.credentials
           Fixtures.saved_world "saved" Fixtures.saved_tokens (JStr "refresh-0")
           Fixtures.oauth_client); try reflexivity.
  vm_compute. discriminate.
Defined.



(** ** [HubSpotClient._make_request] *)

Section ResourceClient.
Import HubspotClient.
Context `{Runtime}.

Lemma _make_request_run (self : HubSpotClient) (verb endpoint : string)
    (kwargs : Kwargs) (w : World) :
  let request := build_request self verb endpoint kwargs in
  let response := respond (sent w) request in
  _make_request self verb endpoint kwargs w
  = (if (status_code response =? 401)%Z
     then Raise (Exception unauthorized_message)
     else if (400 <=? status_code response)%Z
     then Raise (Exception (request_failed_message (status_code response)
                                                   (text response)))
     else match json_loads (text response) with
          | Some body => Ok body
          | None => Raise (JSONDecodeError "Expecting value")
          end,
     {| tokens_file := tokens_file w; sent := sent w ++ [request] |}).
Proof.
  unfold _make_request. run_monad.
  destruct (status_code _ =? 401)%Z; [reflexivity |].
  destruct (400 <=? status_code _)%Z; [reflexivity |].
  run_monad. destruct (json_loads _); reflexivity.
Qed.



End ResourceClient.

(** ** The interactive flow *)

Section Flow.
Import HubspotOauth.
Context `{Runtime}.

Lemma bind_ok {A B} (m : M A) (k : A → M B) (w w' : World) (b : B) :
  bind m k w = (Ok b, w') →
  ∃ a w1, m w = (Ok a, w1) ∧ k a w1 = (Ok b, w').
Proof.
  unfold bind. destruct (m w) as [[a|e] w1]; [eauto | discriminate].
Qed.

Lemma split_on_space_ok (value : json) (w w' : World) (pieces : list string) :
  split_on_space value w = (Ok pieces, w') →
  ∃ s, value = JStr s ∧ pieces = PyStr.split " " s ∧ w' = w.
Proof.
  destruct value; try discriminate. intros [= <- <-]. eauto.
Qed.

Lemma dict_get_ok (value : json) (w w' : World) (d : gmap string json) :
  dict_get value w = (Ok d, w') → value = JObj d ∧ w' = w.
Proof. destruct value; try discriminate. by intros [= <- <-]. Qed.

Lemma saved_record_scopes (token_data user_info : gmap string json)
    (access_token : json) (scopes : list string) :
  saved_record token_data user_info access_token scopes !! "scopes"
  = Some (JArr (JStr <$> scopes)).
Proof. unfold saved_record. by simplify_map_eq. Qed.

(** When the [try] body returns, the token endpoint has answered 200 with
    a JSON object whose [scope], if any, is a string, and the credential
    file holds the record built from it. *)
Lemma exchange_and_save_ok (oauth_client : HubSpotOAuth) (code : string)
    (w w' : World) (returned : option (gmap string json)) :
  exchange_and_save oauth_client code w = (Ok returned, w') →
  let response := respond (sent w) (exchange_request oauth_client code) in
  ∃ token_data user_info access_token scope_text,
    status_code response = 200%Z
    ∧ json_loads (text response) = Some (JObj token_data)
    ∧ token_data !! "access_token" = Some access_token
    ∧ default (JStr EmptyString) (token_data !! "scope") = JStr scope_text
    ∧ tokens_file w'
      = Some (json_dumps (saved_record token_data user_info access_token
                            (PyStr.split " " scope_text))).
Proof.
  intros Hrun response. unfold exchange_and_save in Hrun.
  apply bind_ok in Hrun as (answer & w1 & Hexchange & Hrun).
  apply bind_ok in Hrun as (token_data & w1' & Hdict & Hrun).
  apply dict_get_ok in Hdict as [-> ->].
  apply bind_ok in Hrun as (? & w2 & _ & Hrun).
  apply bind_ok in Hrun as (? & w3 & _ & Hrun).
  apply bind_ok in Hrun as (access_token & w4 & Htoken & Hrun).
  apply bind_ok in Hrun as (info & w5 & _ & Hrun).
  apply bind_ok in Hrun as (user_info & w5' & Hinfo & Hrun).
  apply dict_get_ok in Hinfo as [-> ->].
  apply bind_ok in Hrun as (api_test & w6 & _ & Hrun).
  apply bind_ok in Hrun as (? & w7 & _ & Hrun).
  apply bind_ok in Hrun as (scopes & w8 & Hscopes & Hrun).
  apply bind_ok in Hrun as (? & w9 & Hdump & Hrun).
  apply split_on_space_ok in Hscopes as (scope_text & Hscope & -> & ->).
  exists token_data, user_info, access_token, scope_text.
  rewrite exchange_code_for_token_run in Hexchange. fold response in Hexchange.
  destruct (Z.eqb_spec (status_code response) 200) as [H200|]; [| discriminate].
  destruct (json_loads (text response)) as [body|] eqn:Hbody; [| discriminate].
  injection Hexchange as -> _.
  unfold subscript in Htoken.
  destruct (token_data !! "access_token") as [found|] eqn:Hfound; [| discriminate].
  injection Htoken as -> _.
  unfold ret in Hrun. unfold json_dump in Hdump. simplify_eq.
  repeat split; assumption || reflexivity.
Qed.

(** C10. Whenever the interactive flow succeeds, the [scopes] field of
    the record written to the credential file is the [scope] string of the
    token response split at every single space, and when the response has
    no [scope] it is the one-element list holding the empty string. *)
Theorem interactive_oauth_flow_saves_split_scope (env : Env) (token : string)
    (incoming : list (list string)) (w w' : World) (summary : gmap string json) :
  interactive_oauth_flow env token incoming w = Some (Ok (Some summary), w') →
  ∃ oauth_client server code token_data user_info access_token scope_text,
    HubSpotOAuth_init env = Ok oauth_client
    ∧ wait_for_callback start_callback_server incoming = Some server
    ∧ auth_code server = Some code
    ∧ status_code (respond (sent w) (exchange_request oauth_client code)) = 200%Z
    ∧ json_loads (text (respond (sent w) (exchange_request oauth_client code)))
      = Some (JObj token_data)
    ∧ default (JStr EmptyString) (token_data !! "scope") = JStr scope_text
    ∧ let record := saved_record token_data user_info access_token
                      (PyStr.split " " scope_text) in
      tokens_file w' = Some (json_dumps record)
      ∧ record !! "scopes" = Some (JArr (JStr <$> PyStr.split " " scope_text))
      ∧ (token_data !! "scope" = None →
         record !! "scopes" = Some (JArr [JStr EmptyString])).
Proof.
  unfold interactive_oauth_flow. intros Hflow.
  destruct (HubSpotOAuth_init env) as [oauth_client|e]; [| discriminate].
  destruct (wait_for_callback start_callback_server incoming) as [server|];
    [| discriminate].
  injection Hflow as Hflow. unfold after_callback in Hflow.
  destruct (PyStr.truthy (error server)); [discriminate |].
  destruct (auth_code server) as [code|] eqn:Hcode; [| discriminate].
  destruct (PyStr.truthy (Some code)); [| discriminate].
  unfold try_except in Hflow.
  destruct (exchange_and_save oauth_client code w) as [[returned|e] w1] eqn:Hsave;
    [| discriminate].
  injection Hflow as -> ->.
  apply exchange_and_save_ok in Hsave
    as (token_data & user_info & access_token & scope_text
        & H200 & Hbody & _ & Hscope & Hfile).
  exists oauth_client, server, code, token_data, user_info, access_token, scope_text.
  cbv zeta.
  repeat (split; [first [assumption | apply saved_record_scopes | reflexivity] |]).
  intros Hnone. rewrite Hnone in Hscope. injection Hscope as <-.
  apply saved_record_scopes.
Qed.

End Flow.

Example flow_with_code :
  @HubspotOauth.interactive_oauth_flow Fixtures.granting Fixtures.credentials
    "state-1" [[]; [Fixtures.callback_with_code]] Fixtures.empty_world
  = Some (Ok (Some Fixtures.granted_summary), Fixtures.granted_world).
Proof. vm_compute. reflexivity. Qed.

Lemma interactive_oauth_flow_saves_split_scope_witness :
  @HubspotOauth.interactive_oauth_flow Fixtures.granting Fixtures.credentials
    "state-1" [[]; [Fixtures.callback_with_code]] Fixtures.empty_world
  = Some (Ok (Some Fixtures.granted_summary), Fixtures.granted_world)
  ∧ ∃ oauth_client server code token_data user_info access_token scope_text,
      HubspotOauth.HubSpotOAuth_init Fixtures.credentials = Ok oauth_client
      ∧ @HubspotOauth.wait_for_callback Fixtures.granting
          HubspotOauth.start_callback_server
          [[]; [Fixtures.callback_with_code]] = Some server
      ∧ HubspotOauth.auth_code server = Some code
      ∧ status_code (@respond Fixtures.granting (sent Fixtures.empty_world)
                       (HubspotOauth.exchange_request oauth_client code)) = 200%Z
      ∧ @json_loads Fixtures.granting
          (text (@respond Fixtures.granting (sent Fixtures.empty_world)
                   (HubspotOauth.exchange_request oauth_client code)))
        = Some (JObj token_data)
      ∧ default (JStr EmptyString) (token_data !! "scope") = JStr scope_text
      ∧ let record := HubspotOauth.saved_record token_data user_info access_token
                        (PyStr.split " " scope_text) in
        tokens_file Fixtures.granted_world
        = Some (@json_dumps Fixtures.granting record)
        ∧ record !! "scopes" = Some (JArr (JStr <$> PyStr.split " " scope_text))
        ∧ (token_data !! "scope" = None →
           record !! "scopes" = Some (JArr [JStr EmptyString])).
Proof.
  split; [exact flow_with_code |].
  exact (@interactive_oauth_flow_saves_split_scope Fixtures.granting
           Fixtures.credentials "state-1" [[]; [Fixtures.callback_with_code]]
           Fixtures.empty_world Fixtures.granted_world Fixtures.granted_summary
           flow_with_code).
Defined.





(** ** The flows evaluated *)

(** A redirect that carries both parameters is taken as a success: the
    [code] branch comes first. *)
Example handle_request_code_and_error :
  (@HubspotOauth.handle_request Fixtures.granting
     "/hubspot/oauth/callback?code=abc&error=access_denied"
     HubspotOauth.nothing_captured).2
  = {| HubspotOauth.auth_code := Some "abc";
       HubspotOauth.state := None;
       HubspotOauth.error := None |}.
Proof. vm_compute. reflexivity. Qed.

(** A later request without parameters takes back what an earlier one
    brought within the same sleep. *)
Example later_request_overwrites :
  @HubspotOauth.wait_for_callback Fixtures.granting HubspotOauth.start_callback_server
    [["/hubspot/oauth/callback?code=abc123"; "/favicon.ico"]] = None.
Proof. vm_compute. reflexivity. Qed.

(** A later request that [urlparse] refuses takes nothing back: the
    handler dies before its assignments. *)
Example refused_request_keeps_code :
  @HubspotOauth.wait_for_callback Fixtures.granting HubspotOauth.start_callback_server
    [["/hubspot/oauth/callback?code=abc123"; "http://[::1/favicon.ico"]]
  = Some {| HubspotOauth.auth_code := Some "abc123";
            HubspotOauth.state := None;
            HubspotOauth.error := None |}.
Proof. vm_compute. reflexivity. Qed.

(** What is captured has been read as UTF-8: a byte that is none becomes
    U+FFFD. *)
Example handle_request_replaces_bytes :
  (@HubspotOauth.handle_request Fixtures.granting "/hubspot/oauth/callback?code=%FF"
     HubspotOauth.nothing_captured).2
  = {| HubspotOauth.auth_code :=
         Some (String (ascii_of_N 239) (String (ascii_of_N 191)
                 (String (ascii_of_N 189) EmptyString)));
       HubspotOauth.state := None;
       HubspotOauth.error := None |}.
Proof. vm_compute. reflexivity. Qed.

(** * Further properties of the code *)

Section Strings.

Lemma concat_cons2 (sep x y : string) (l : list string) :
  String.concat sep (x :: y :: l) = x +:+ sep +:+ String.concat sep (y :: l).
Proof. reflexivity. Qed.

Lemma split_cons_sep (sep : ascii) (rest : string) :
  PyStr.split sep (String sep rest) = EmptyString :: PyStr.split sep rest.
Proof. simpl. by rewrite Ascii.eqb_refl. Qed.

Lemma split_without_sep (sep : ascii) (piece : string) :
  PyStr.occurs sep piece = false → PyStr.split sep piece = [piece].
Proof.
  induction piece as [|c piece IH]; [reflexivity |].
  simpl. intros Hocc. apply orb_false_elim in Hocc as [Hc Hrest].
  rewrite Hc, (IH Hrest). reflexivity.
Qed.

Lemma split_app_sep (sep : ascii) (piece rest : string) :
  PyStr.occurs sep piece = false →
  PyStr.split sep (piece +:+ String sep rest) = piece :: PyStr.split sep rest.
Proof.
  induction piece as [|c piece IH]; intros Hocc.
  - rewrite append_nil_l. apply split_cons_sep.
  - simpl in Hocc. apply orb_false_elim in Hocc as [Hc Hrest].
    rewrite append_cons. simpl. rewrite Hc, (IH Hrest). reflexivity.
Qed.

Lemma split_join (sep : ascii) (pieces : list string) :
  pieces ≠ [] →
  Forall (λ piece, PyStr.occurs sep piece = false) pieces →
  PyStr.split sep (PyStr.join (String sep EmptyString) pieces) = pieces.
Proof.
  intros Hne Hall. unfold PyStr.join.
  induction Hall as [|piece pieces Hpiece Hall IH]; [done |].
  destruct pieces as [|next pieces].
  - simpl. by apply split_without_sep.
  - rewrite concat_cons2, append_cons, append_nil_l.
    rewrite split_app_sep by exact Hpiece.
    f_equal. by apply IH.
Qed.

Lemma join_split (sep : ascii) (s : string) :
  PyStr.join (String sep EmptyString) (PyStr.split sep s) = s.
Proof.
  unfold PyStr.join.
  induction s as [|c s IH]; [reflexivity |].
  simpl. destruct (Ascii.eqb_spec c sep) as [->|Hne].
  - pose proof (split_nonempty sep s) as Hsplit.
    destruct (PyStr.split sep s) as [|piece pieces] eqn:Hs; [done |].
    rewrite concat_cons2, append_nil_l, append_cons, append_nil_l.
    by rewrite IH.
  - pose proof (split_nonempty sep s) as Hsplit.
    destruct (PyStr.split sep s) as [|piece pieces] eqn:Hs; [done |].
    destruct pieces as [|next pieces].
    + simpl in *. by rewrite IH.
    + rewrite concat_cons2 in *. rewrite append_cons. by rewrite IH.
Qed.

End Strings.

Section QueryRoundTrip.
Import Urllib.

Lemma all_chars_app (ok : ascii → bool) (a b : string) :
  PyStr.all_chars ok (a +:+ b) = PyStr.all_chars ok a && PyStr.all_chars ok b.
Proof.
  induction a as [|c a IH]; [reflexivity |].
  rewrite append_cons. simpl. rewrite IH. by rewrite andb_assoc.
Qed.

Lemma occurs_app (c : ascii) (a b : string) :
  PyStr.occurs c (a +:+ b) = PyStr.occurs c a || PyStr.occurs c b.
Proof.
  induction a as [|d a IH]; [reflexivity |].
  rewrite append_cons. simpl. rewrite IH. by rewrite orb_assoc.
Qed.

Lemma all_chars_occurs (ok : ascii → bool) (c : ascii) (s : string) :
  PyStr.all_chars ok s = true → ok c = false → PyStr.occurs c s = false.
Proof.
  intros Hall Hc. induction s as [|d s IH]; [reflexivity |].
  simpl in *. apply andb_prop in Hall as [Hd Hs].
  rewrite (IH Hs), orb_false_r.
  destruct (Ascii.eqb_spec d c) as [->|]; [congruence | reflexivity].
Qed.

Lemma quote_plus_byte_chars (c : ascii) :
  PyStr.all_chars url_char (quote_plus_byte c) = true.
Proof. destruct c as [[] [] [] [] [] [] [] []]; reflexivity. Qed.

Lemma quote_plus_chars (s : string) :
  PyStr.all_chars url_char (quote_plus s) = true.
Proof.
  induction s as [|c s IH]; [reflexivity |].
  simpl. by rewrite all_chars_app, quote_plus_byte_chars, IH.
Qed.

Lemma quote_plus_byte_nonempty (c : ascii) : quote_plus_byte c ≠ EmptyString.
Proof.
  unfold quote_plus_byte, percent_escape.
  destruct (always_safe c); [discriminate |].
  destruct (Ascii.eqb c " "); discriminate.
Qed.

Lemma quote_plus_nonempty (s : string) : s ≠ EmptyString → quote_plus s ≠ EmptyString.
Proof.
  destruct s as [|c s]; [done |]. intros _. simpl.
  pose proof (quote_plus_byte_nonempty c) as Hc.
  destruct (quote_plus_byte c); [done |]. rewrite append_cons. discriminate.
Qed.

Lemma split_once_app_sep (sep : ascii) (before after : string) :
  PyStr.occurs sep before = false →
  PyStr.split_once sep (before +:+ String sep after) = Some (before, after).
Proof.
  induction before as [|c before IH]; intros Hocc.
  - rewrite append_nil_l. simpl. by rewrite Ascii.eqb_refl.
  - simpl in Hocc. apply orb_false_elim in Hocc as [Hc Hrest].
    rewrite append_cons. simpl. by rewrite Hc, (IH Hrest).
Qed.

Lemma split_once_without_sep (sep : ascii) (s : string) :
  PyStr.occurs sep s = false → PyStr.split_once sep s = None.
Proof.
  induction s as [|c s IH]; [reflexivity |].
  simpl. intros Hocc. apply orb_false_elim in Hocc as [Hc Hrest].
  by rewrite Hc, (IH Hrest).
Qed.

Lemma parse_field_encode_pair (kv : string * string) :
  kv.2 ≠ EmptyString → parse_field (encode_pair kv) = Some kv.
Proof.
  intros Hvalue. destruct kv as [k v]. unfold parse_field, encode_pair. simpl in *.
  rewrite append_cons, append_nil_l.
  rewrite split_once_app_sep
    by (apply (all_chars_occurs url_char); [apply quote_plus_chars | reflexivity]).
  pose proof (quote_plus_nonempty v Hvalue) as Hq.
  destruct (quote_plus v) as [|c q] eqn:Hv; [done |].
  rewrite <- Hv. by rewrite !unquote_plus_quote_plus.
Qed.

Lemma encode_pair_without_ampersand (kv : string * string) :
  PyStr.occurs "&" (encode_pair kv) = false.
Proof.
  unfold encode_pair. rewrite !occurs_app.
  rewrite !(all_chars_occurs url_char "&" _ (quote_plus_chars _)) by reflexivity.
  reflexivity.
Qed.

Lemma parse_qsl_of_urlencode (query : list (string * string)) :
  Forall (λ kv, kv.2 ≠ EmptyString) query →
  parse_qsl (urlencode query) = query.
Proof.
  intros Hvalues. unfold parse_qsl, urlencode.
  change (λ kv : string * string, quote_plus kv.1 +:+ "=" +:+ quote_plus kv.2)
    with encode_pair.
  destruct query as [|kv query]; [reflexivity |].
  rewrite (split_join "&")
    by (try done; apply Forall_forall; intros piece Hin;
        apply list_elem_of_fmap in Hin as (kv' & -> & _);
        apply encode_pair_without_ampersand).
  induction Hvalues as [|kv' rest Hkv Hrest IH]; [reflexivity |].
  rewrite fmap_cons. simpl. rewrite parse_field_encode_pair by exact Hkv.
  simpl. f_equal. exact IH.
Qed.
End QueryRoundTrip.

Section QueryInvariants.
Import Urllib HubspotOauth.

Lemma urlencode_chars (query : list (string * string)) :
  PyStr.all_chars (λ c, url_char c || Ascii.eqb c "=" || Ascii.eqb c "&")
    (urlencode query) = true.
Proof.
  assert (Hweaker : ∀ s, PyStr.all_chars url_char s = true →
            PyStr.all_chars (λ c, url_char c || Ascii.eqb c "=" || Ascii.eqb c "&") s
            = true).
  { induction s as [|c s IH]; [reflexivity |]. simpl.
    intros Hall. apply andb_prop in Hall as [-> Hs]. by rewrite (IH Hs). }
  unfold urlencode, PyStr.join.
  change (λ kv : string * string, quote_plus kv.1 +:+ "=" +:+ quote_plus kv.2)
    with encode_pair.
  induction query as [|kv query IH]; [reflexivity |].
  assert (Hpair : PyStr.all_chars
                    (λ c, url_char c || Ascii.eqb c "=" || Ascii.eqb c "&")
                    (encode_pair kv) = true).
  { unfold encode_pair. rewrite !all_chars_app.
    rewrite (Hweaker _ (quote_plus_chars kv.1)), (Hweaker _ (quote_plus_chars kv.2)).
    reflexivity. }
  destruct query as [|next query]; [exact Hpair |].
  rewrite fmap_cons, fmap_cons, concat_cons2, !all_chars_app.
  rewrite Hpair. rewrite fmap_cons in IH. rewrite IH. reflexivity.
Qed.

Lemma all_chars_impl (ok ok' : ascii → bool) (s : string) :
  (∀ c, ok c = true → ok' c = true) →
  PyStr.all_chars ok s = true → PyStr.all_chars ok' s = true.
Proof.
  intros Himpl. induction s as [|c s IH]; [reflexivity |]. simpl.
  intros Hall. apply andb_prop in Hall as [Hc Hs].
  by rewrite (Himpl c Hc), (IH Hs).
Qed.

Lemma remove_unsafe_clean (s : string) :
  PyStr.all_chars (λ c, negb (unsafe c)) s = true → remove_unsafe s = s.
Proof.
  induction s as [|c s IH]; [reflexivity |]. simpl.
  intros Hall. apply andb_prop in Hall as [Hc Hs].
  apply negb_true_iff in Hc. by rewrite Hc, (IH Hs).
Qed.

Lemma url_char_safe (c : ascii) :
  url_char c || Ascii.eqb c "=" || Ascii.eqb c "&" = true → negb (unsafe c) = true.
Proof. destruct c as [[] [] [] [] [] [] [] []]; simpl; intros Hc; done. Qed.

(** X3. The query of the authorization URL, read by the parser the callback
    handler uses, gives back the five parameters. *)
Theorem authorization_url_parses_back (env : Env) (self : HubSpotOAuth)
    (scopes : list string) (state token : string) :
  HubSpotOAuth_init env = Ok self →
  redirect_uri self ≠ EmptyString →
  PyStr.join " " scopes ≠ EmptyString →
  state ≠ EmptyString →
  parse_qsl (urlparse_query
               (get_authorization_url self (Some scopes) (Some state) token))
  = [("client_id", client_id self);
     ("redirect_uri", redirect_uri self);
     ("scope", PyStr.join " " scopes);
     ("response_type", "code");
     ("state", state)].
Proof.
  intros Hinit Hredirect Hscope Hstate.
  assert (Hclient : client_id self ≠ EmptyString
                    ∧ authorize_url self = "https://app.hubspot.com/oauth/authorize").
  { unfold HubSpotOAuth_init in Hinit.
    destruct (HUBSPOT_CLIENT_ID env) as [[|c id]|]; try discriminate.
    simpl in Hinit.
    destruct (negb (PyStr.truthy (HUBSPOT_CLIENT_SECRET env))); [discriminate |].
    injection Hinit as <-. split; [discriminate | reflexivity]. }
  destruct Hclient as [Hid Hurl].
  unfold get_authorization_url. rewrite Hurl.
  set (query := urlencode (authorization_params self scopes state)).
  assert (Hquery : urlparse_query
                     ("https://app.hubspot.com/oauth/authorize" +:+ "?" +:+ query)
                   = query).
  { unfold urlparse_query. change ("?" +:+ query) with (String "?" query).
    rewrite remove_unsafe_clean.
    2: { rewrite all_chars_app. apply andb_true_intro. split; [reflexivity |].
         change (PyStr.all_chars (λ c, negb (unsafe c)) (String "?" query))
           with (negb (unsafe "?") && PyStr.all_chars (λ c, negb (unsafe c)) query).
         apply andb_true_intro. split; [reflexivity |].
         apply (all_chars_impl _ _ _ url_char_safe (urlencode_chars _)). }
    rewrite (split_once_without_sep "#").
    - by rewrite (split_once_app_sep "?" "https://app.hubspot.com/oauth/authorize" query).
    - rewrite occurs_app. simpl PyStr.occurs at 1.
      change (PyStr.occurs "#" (String "?" query)) with (PyStr.occurs "#" query).
      by rewrite (all_chars_occurs _ "#" query (urlencode_chars _)). }
  rewrite Hquery. subst query.
  apply parse_qsl_of_urlencode. unfold authorization_params.
  repeat constructor; simpl; done.
Qed.

Lemma unquote_plus_nonempty (s : string) :
  s ≠ EmptyString → unquote_plus s ≠ EmptyString.
Proof.
  destruct s as [|c s]; [done |]. intros _.
  destruct c as [[] [] [] [] [] [] [] []]; simpl;
    try discriminate;
    destruct s as [|h [|l s]]; try discriminate;
    destruct (hex_value h), (hex_value l); discriminate.
Qed.

Lemma parse_field_value (field name value : string) :
  parse_field field = Some (name, value) → value ≠ EmptyString.
Proof.
  unfold parse_field.
  destruct (PyStr.split_once "=" field) as [[raw_name raw_value]|]; [| discriminate].
  destruct raw_value as [|c raw]; [discriminate |].
  intros [= _ <-]. by apply (unquote_plus_nonempty (String c raw)).
Qed.

Lemma parse_qsl_values (qs : string) :
  Forall (λ nv, nv.2 ≠ EmptyString) (parse_qsl qs).
Proof.
  unfold parse_qsl. apply Forall_forall. intros [name value] Hin.
  apply list_elem_of_omap in Hin as (field & _ & Hfield).
  by apply parse_field_value in Hfield.
Qed.

Lemma utf8_replace_nonempty (s : string) :
  s ≠ EmptyString → utf8_replace s ≠ EmptyString.
Proof.
  destruct s as [|c s]; [done |]. intros _. simpl.
  repeat case_match; discriminate.
Qed.

(** Every list in the dictionary [parse_qs] builds has a first element,
    and all its elements are non-empty strings. *)
Lemma parse_qs_lists (qs name : string) (values : list string) :
  parse_qs qs !! name = Some values →
  (∃ first others, values = first :: others)
  ∧ Forall (λ value, value ≠ EmptyString) values.
Proof.
  unfold parse_qs.
  assert (Hpairs : Forall (λ nv : string * string, nv.2 ≠ EmptyString)
                     ((λ nv, (utf8_replace nv.1, utf8_replace nv.2)) <$> parse_qsl qs)).
  { apply Forall_fmap. eapply Forall_impl; [apply parse_qsl_values |].
    intros [raw_name raw_value] Hvalue. by apply utf8_replace_nonempty. }
  assert (Hinv : ∀ (pairs : list (string * string)) (start : gmap string (list string)),
             Forall (λ nv, nv.2 ≠ EmptyString) pairs →
             (∀ k vs, start !! k = Some vs →
                      (∃ first others, vs = first :: others)
                      ∧ Forall (λ value, value ≠ EmptyString) vs) →
             ∀ k vs,
               foldl (λ parsed nv,
                        match parsed !! nv.1 with
                        | Some values => <[nv.1 := values ++ [nv.2]]> parsed
                        | None => <[nv.1 := [nv.2]]> parsed
                        end) start pairs !! k = Some vs →
               (∃ first others, vs = first :: others)
               ∧ Forall (λ value, value ≠ EmptyString) vs).
  { induction pairs as [|[n v] pairs IH]; intros start Hall Hstart k vs; simpl.
    - apply Hstart.
    - apply Forall_cons in Hall as [Hv Hall]. simpl in Hv.
      apply IH; [exact Hall |].
      intros k' vs'. destruct (start !! n) as [old|] eqn:Hold.
      + destruct (decide (n = k')) as [<-|Hne].
        * rewrite lookup_insert_eq. intros [= <-].
          destruct (Hstart n old Hold) as [(first & others & ->) Hnonempty].
          split; [by eexists _, _ |].
          apply Forall_app. split; [exact Hnonempty | by constructor].
        * rewrite lookup_insert_ne by done. apply Hstart.
      + destruct (decide (n = k')) as [<-|Hne].
        * rewrite lookup_insert_eq. intros [= <-].
          split; [by eexists _, _ | by constructor].
        * rewrite lookup_insert_ne by done. apply Hstart. }
  apply (Hinv _ ∅ Hpairs). intros k vs. by rewrite lookup_empty.
Qed.
End QueryInvariants.

Section FlowTrace.
Import HubspotOauth.
Context `{Runtime}.

Lemma exchange_and_save_trace (oauth_client : HubSpotOAuth) (code : string) (w : World) :
  let final := exchange_and_save oauth_client code w in
  ∃ more,
    sent final.2 = sent w ++ exchange_request oauth_client code :: more
    ∧ (length more ≤ 2)%nat
    ∧ (∀ value, final.1 = Ok value → ∃ summary, value = Some summary)
    ∧ (∀ e, final.1 = Raise e →
            tokens_file final.2 = tokens_file w ∨ tokens_file final.2 = Some EmptyString)
    ∧ (status_code (respond (sent w) (exchange_request oauth_client code)) ≠ 200%Z →
       more = [] ∧ tokens_file final.2 = tokens_file w ∧ ∃ e, final.1 = Raise e).
Proof.
  unfold exchange_and_save, exchange_code_for_token, get_user_info,
    test_api_connection, slice_prefix, subscript, split_on_space, dict_get.
  run_monad.
  repeat (case_match; run_monad; simplify_eq);
    eexists; rewrite <- ?app_assoc; simpl;
    (split; [reflexivity |]); simpl;
    (split; [lia |]);
    (split; [intros; simplify_eq; eauto |]);
    (split; [intros; simplify_eq; auto |]);
    intros Hne; try (exfalso; apply Hne; by apply Z.eqb_eq); eauto.
Qed.

Lemma handle_request_cases (path : string) (server : Captured) :
  let after := (handle_request path server).2 in
  after = server
  ∨ after = nothing_captured
  ∨ (∃ code, auth_code after = Some code ∧ code ≠ EmptyString ∧ error after = None)
  ∨ (∃ reason, error after = Some reason ∧ reason ≠ EmptyString
               ∧ auth_code after = None ∧ state after = None).
Proof.
  unfold handle_request, do_GET.
  destruct (Urllib.urlparse urlsplit_accepts path) as [query|e]; [| by left].
  right.
  destruct (Urllib.parse_qs query !! "code") as [codes|] eqn:Hcode.
  - right. left.
    destruct (parse_qs_lists _ _ _ Hcode) as [(code & others & ->) Hnonempty].
    apply Forall_cons in Hnonempty as [Hcode_nonempty _].
    exists code. simpl. auto.
  - destruct (Urllib.parse_qs query !! "error") as [reasons|] eqn:Herror.
    + right. right.
      destruct (parse_qs_lists _ _ _ Herror) as [(reason & others & ->) Hnonempty].
      apply Forall_cons in Hnonempty as [Hreason_nonempty _].
      exists reason. simpl. auto.
    + left. reflexivity.
Qed.

Lemma serve_batch_cases (batch : list string) (server : Captured) :
  server = nothing_captured ∨ settled server →
  let after := foldl (λ srv path, (handle_request path srv).2) server batch in
  after = nothing_captured ∨ settled after.
Proof.
  revert server. induction batch as [|path batch IH]; intros server Hserver; [exact Hserver |].
  simpl. apply IH.
  destruct (handle_request_cases path server) as [->|[Hnothing|Hsettled]];
    [exact Hserver | by left | by right].
Qed.

Lemma wait_for_callback_settled (incoming : list (list string)) (server : Captured) :
  wait_for_callback start_callback_server incoming = Some server →
  (∃ code, auth_code server = Some code ∧ code ≠ EmptyString ∧ error server = None)
  ∨ (∃ reason, error server = Some reason ∧ reason ≠ EmptyString
               ∧ auth_code server = None ∧ state server = None).
Proof.
  assert (Hgen : ∀ start, start = nothing_captured ∨ settled start →
                          wait_for_callback start incoming = Some server →
                          settled server).
  { induction incoming as [|batch incoming IH]; intros start Hstart; simpl.
    - destruct (still_waiting start) eqn:Hwaiting; [discriminate |].
      intros [= <-]. destruct Hstart as [->|Hsettled]; [discriminate | exact Hsettled].
    - destruct (still_waiting start) eqn:Hwaiting.
      + apply IH. by apply serve_batch_cases.
      + intros [= <-]. destruct Hstart as [->|Hsettled]; [discriminate | exact Hsettled]. }
  apply Hgen. by left.
Qed.
End FlowTrace.

Section FlowProperties.
Import HubspotOauth Urllib.
Context `{Runtime}.

(** X9. Once a callback has ended the wait, the flow returns: every
    exception raised after that point is caught. It sends at most three
    requests; and when it returns [None] the credential file is what it
    was, or empty. *)
Theorem interactive_oauth_flow_frame (env : Env) (token : string)
    (incoming : list (list string)) (w : World) (oauth_client : HubSpotOAuth)
    (server : Captured) :
  HubSpotOAuth_init env = Ok oauth_client →
  wait_for_callback start_callback_server incoming = Some server →
  ∃ value w' more,
    interactive_oauth_flow env token incoming w = Some (Ok value, w')
    ∧ sent w' = sent w ++ more
    ∧ (length more ≤ 3)%nat
    ∧ (value = None →
       tokens_file w' = tokens_file w ∨ tokens_file w' = Some EmptyString).
Proof.
  intros Hinit Hwait. unfold interactive_oauth_flow. rewrite Hinit, Hwait.
  assert (Hnothing : ∃ value w' more,
             Some (Ok (A := option (gmap string json)) None, w) = Some (Ok value, w')
             ∧ sent w' = sent w ++ more ∧ (length more ≤ 3)%nat
             ∧ (value = None →
                tokens_file w' = tokens_file w ∨ tokens_file w' = Some EmptyString)).
  { exists None, w, []. rewrite app_nil_r. simpl. repeat split; auto with lia. }
  unfold after_callback.
  destruct (PyStr.truthy (error server)); [exact Hnothing |].
  destruct (auth_code server) as [code|]; [| exact Hnothing].
  destruct (PyStr.truthy (Some code)); [| exact Hnothing].
  unfold try_except.
  destruct (exchange_and_save_trace oauth_client code w)
    as (more & Hsent & Hlen & Hsome & Hraise & _).
  destruct (exchange_and_save oauth_client code w) as [[value|e] w1];
    simpl in *; unfold ret.
  - exists value, w1, (exchange_request oauth_client code :: more).
    repeat split; [exact Hsent | simpl; lia |].
    intros ->. by destruct (Hsome None eq_refl).
  - exists None, w1, (exchange_request oauth_client code :: more).
    repeat split; [exact Hsent | simpl; lia |].
    intros _. by apply (Hraise e).
Qed.

(** X10. A token endpoint that answers the exchange with anything but 200
    ends the flow after that one request, with [None] and the credential
    file untouched. *)
Theorem interactive_oauth_flow_exchange_failed (env : Env) (token : string)
    (incoming : list (list string)) (w : World)
    (oauth_client : HubSpotOAuth) (server : Captured) (code : string) :
  HubSpotOAuth_init env = Ok oauth_client →
  wait_for_callback start_callback_server incoming = Some server →
  auth_code server = Some code →
  status_code (respond (sent w) (exchange_request oauth_client code)) ≠ 200%Z →
  interactive_oauth_flow env token incoming w
  = Some (Ok None,
          {| tokens_file := tokens_file w;
             sent := sent w ++ [exchange_request oauth_client code] |}).
Proof.
  intros Hinit Hwait Hcode Hstatus.
  unfold interactive_oauth_flow. rewrite Hinit, Hwait.
  destruct (wait_for_callback_settled incoming server Hwait)
    as [(code' & Hcode' & Hnonempty & Herror)|(reason & _ & _ & Hnone & _)];
    [| congruence].
  unfold after_callback. rewrite Herror, Hcode. simpl.
  assert (code' = code) as -> by congruence.
  destruct code as [|c code]; [done |]. simpl.
  unfold try_except.
  destruct (exchange_and_save_trace oauth_client (String c code) w)
    as (more & Hsent & _ & _ & _ & Hfailed).
  destruct (Hfailed Hstatus) as (-> & Hfile & e & Hraised).
  destruct (exchange_and_save oauth_client (String c code) w) as [outcome w1].
  simpl in *. subst outcome. unfold ret. do 2 f_equal.
  destruct w1 as [file requests]. simpl in *. by subst.
Qed.


(** X8. Two callbacks that [urlparse] accepts and that carry the same
    [code] parameters give the same flow: neither the [state] the callback
    echoes nor the state the flow generated is looked at. *)
Theorem interactive_oauth_flow_ignores_state (env : Env) (token1 token2 : string)
    (path1 path2 query1 query2 : string) (earlier : list (list string))
    (later1 later2 : list (list string)) (w : World) (codes : list string) :
  wait_for_callback start_callback_server earlier = None →
  urlparse urlsplit_accepts path1 = Ok query1 →
  urlparse urlsplit_accepts path2 = Ok query2 →
  parse_qs query1 !! "code" = Some codes →
  parse_qs query2 !! "code" = Some codes →
  interactive_oauth_flow env token1 (earlier ++ [path1] :: later1) w
  = interactive_oauth_flow env token2 (earlier ++ [path2] :: later2) w.
Proof.
  intros Hearlier Hquery1 Hquery2 Hcode1 Hcode2.
  unfold interactive_oauth_flow.
  destruct (HubSpotOAuth_init env) as [oauth_client|e]; [| reflexivity].
  destruct (wait_for_callback_app earlier ([path1] :: later1)
              start_callback_server Hearlier) as (server1 & Hwaiting1 & ->).
  destruct (wait_for_callback_app earlier ([path2] :: later2)
              start_callback_server Hearlier) as (server2 & Hwaiting2 & ->).
  simpl. rewrite Hwaiting1, Hwaiting2.
  rewrite (handle_request_code path1 query1 _ _ Hquery1 Hcode1).
  rewrite (handle_request_code path2 query2 _ _ Hquery2 Hcode2).
  destruct (parse_qs_lists _ _ _ Hcode1) as [(code & others & ->) _].
  simpl.
  rewrite !wait_for_callback_left by reflexivity.
  reflexivity.
Qed.

(** X6. A request that [urlparse] accepts and that has neither [code] nor
    [error], served after others within the same sleep, wipes what they
    brought: the loop goes on as if the sleep had brought nothing. *)
Theorem wait_for_callback_wiped (batch : list string) (path query : string)
    (later : list (list string)) :
  urlparse urlsplit_accepts path = Ok query →
  parse_qs query !! "code" = None →
  parse_qs query !! "error" = None →
  wait_for_callback start_callback_server ((batch ++ [path]) :: later)
  = wait_for_callback start_callback_server later.
Proof.
  intros Hquery Hcode Herror. simpl.
  rewrite serve_batch_last, (handle_request_neither path query _ Hquery Hcode Herror).
  reflexivity.
Qed.

(** A request that [urlparse] refuses, on the contrary, leaves what the
    requests before it brought. *)
Lemma wait_for_callback_refused (batch : list string) (path : string) (e : exn)
    (later : list (list string)) (server : Captured) :
  urlparse urlsplit_accepts path = Raise e →
  still_waiting server = true →
  wait_for_callback server ((batch ++ [path]) :: later)
  = wait_for_callback server (batch :: later).
Proof.
  intros Hquery Hwaiting. simpl. rewrite Hwaiting, serve_batch_last.
  by rewrite (handle_request_refused path e _ Hquery).
Qed.
End FlowProperties.

Section RefreshProperties.
Import HubspotOauth.
Context `{Runtime}.

(** What [refresh_saved_tokens] does, whatever the file holds. It sends at
    most one request, the refresh; when it returns [None] the file is what
    it was; when it returns a record, that record is what the file now
    holds; and it raises only at the test of line 322, on a file that
    holds [true] or a number other than zero, with nothing sent and
    nothing written. *)
Lemma refresh_saved_tokens_trace (env : Env) (w : World) :
  let final := refresh_saved_tokens env w in
  (sent final.2 = sent w
   ∨ ∃ oauth_client refresh_token,
       HubSpotOAuth_init env = Ok oauth_client
       ∧ sent final.2 = sent w ++ [refresh_request oauth_client refresh_token])
  ∧ (final.1 = Ok None → tokens_file final.2 = tokens_file w)
  ∧ (∀ merged, final.1 = Ok (Some merged) →
               tokens_file final.2 = Some (json_dumps merged))
  ∧ (∀ e, final.1 = Raise e →
          final.2 = w
          ∧ ∃ content document,
              tokens_file w = Some content
              ∧ json_loads content = Some document
              ∧ json_truthy document = true
              ∧ not_iterable document = true).
Proof.
  intros final. subst final.
  destruct (refresh_saved_tokens env w) as [outcome w'] eqn:Hrun. simpl.
  assert (Hidle : (Ok None, w) = (outcome, w') →
             (sent w' = sent w
              ∨ ∃ oauth_client refresh_token,
                  HubSpotOAuth_init env = Ok oauth_client
                  ∧ sent w' = sent w ++ [refresh_request oauth_client refresh_token])
             ∧ (outcome = Ok None → tokens_file w' = tokens_file w)
             ∧ (∀ merged, outcome = Ok (Some merged) →
                          tokens_file w' = Some (json_dumps merged))
             ∧ (∀ e, outcome = Raise e →
                     w' = w
                     ∧ ∃ content document,
                         tokens_file w = Some content
                         ∧ json_loads content = Some document
                         ∧ json_truthy document = true
                         ∧ not_iterable document = true)).
  { intros [= <- <-]. repeat split; auto; discriminate. }
  revert Hrun.
  unfold refresh_saved_tokens, load_saved_tokens. unfold bind at 1.
  destruct (tokens_file w) as [content|] eqn:Hfile; [| exact Hidle].
  rewrite <- Hfile in Hidle |- *.
  destruct (json_loads content) as [document|] eqn:Hload; [| exact Hidle].
  destruct (json_truthy document) eqn:Htruthy; [| exact Hidle].
  cbv beta iota delta [negb]. unfold bind at 1, lift.
  destruct (json_contains document "refresh_token") as [found|e] eqn:Hfound.
  2: { intros [= <- <-]. split; [by left |].
       split; [discriminate |]. split; [discriminate |].
       intros e' _. split; [reflexivity |].
       exists content, document. repeat split; try assumption.
       destruct document; try reflexivity; discriminate Hfound. }
  destruct found; [| exact Hidle]. cbv beta iota delta [negb].
  unfold try_except, bind at 1, lift.
  destruct (HubSpotOAuth_init env) as [oauth_client|e] eqn:Hinit; [| exact Hidle].
  unfold bind at 1.
  destruct (json_subscript document "refresh_token" w)
    as [[refresh_token|e] w0] eqn:Hsubscript.
  2: { assert (w0 = w) as ->.
       { unfold json_subscript, subscript in Hsubscript.
         repeat case_match; by injection Hsubscript. }
       exact Hidle. }
  assert (w0 = w) as ->.
  { unfold json_subscript, subscript in Hsubscript.
    repeat case_match; by injection Hsubscript. }
  unfold bind at 1.
  rewrite refresh_access_token_run. cbv zeta.
  assert (Hsent : ∀ file,
             sent {| tokens_file := file;
                     sent := sent w ++ [refresh_request oauth_client refresh_token] |}
             = sent w
             ∨ ∃ client token,
                 Ok oauth_client = Ok client
                 ∧ sent {| tokens_file := file;
                           sent := sent w
                                   ++ [refresh_request oauth_client refresh_token] |}
                   = sent w ++ [refresh_request client token]).
  { intros file. right. eauto. }
  assert (Hfailed : ∀ outcome0 w0,
             (Ok None,
              {| tokens_file := tokens_file w;
                 sent := sent w ++ [refresh_request oauth_client refresh_token] |})
             = (outcome0, w0) →
             (sent w0 = sent w
              ∨ ∃ client token,
                  Ok oauth_client = Ok client
                  ∧ sent w0 = sent w ++ [refresh_request client token])
             ∧ (outcome0 = Ok None → tokens_file w0 = tokens_file w)
             ∧ (∀ merged, outcome0 = Ok (Some merged) →
                          tokens_file w0 = Some (json_dumps merged))
             ∧ (∀ e, outcome0 = Raise e →
                     w0 = w
                     ∧ ∃ content document,
                         tokens_file w = Some content
                         ∧ json_loads content = Some document
                         ∧ json_truthy document = true
                         ∧ not_iterable document = true)).
  { intros outcome0 w0 [= <- <-]. split; [apply Hsent |].
    repeat split; auto; discriminate. }
  destruct (status_code _ =? 200)%Z; [| apply Hfailed].
  destruct (json_loads (text _)) as [new_tokens|]; [| apply Hfailed].
  unfold bind at 1, dict_get.
  destruct document as [| | | | | |tokens]; try apply Hfailed.
  unfold ret at 1. unfold bind at 1.
  destruct (tokens_update tokens new_tokens _) as [[merged|e] w1] eqn:Hupdate.
  2: { assert (w1 = {| tokens_file := tokens_file w;
                       sent := sent w ++ [refresh_request oauth_client refresh_token] |})
         as ->.
       { unfold tokens_update, lift, ret, raise in Hupdate.
         repeat case_match; by injection Hupdate. }
       apply Hfailed. }
  assert (w1 = {| tokens_file := tokens_file w;
                  sent := sent w ++ [refresh_request oauth_client refresh_token] |})
    as ->.
  { unfold tokens_update, lift, ret, raise in Hupdate.
    repeat case_match; by injection Hupdate. }
  unfold bind, open_for_writing, json_dump, ret. simpl.
  intros [= <- <-]. split; [apply Hsent |].
  split; [discriminate |]. split; [by intros merged' [= <-] | discriminate].
Qed.

(** X13. When the credential file is missing, unreadable, holds an empty
    or null value, or holds an object, a list or a string in which
    [refresh_token] is not found, nothing is sent and nothing is
    written. *)
Theorem refresh_saved_tokens_without_refresh_token (env : Env) (w : World) :
  (∀ content document,
      tokens_file w = Some content → json_loads content = Some document →
      json_truthy document = false
      ∨ json_contains document "refresh_token" = Ok false) →
  refresh_saved_tokens env w = (Ok None, w).
Proof.
  intros Hmissing.
  unfold refresh_saved_tokens, load_saved_tokens. unfold bind at 1.
  destruct (tokens_file w) as [content|] eqn:Hfile; [| reflexivity].
  destruct (json_loads content) as [document|] eqn:Hload; [| reflexivity].
  destruct (Hmissing content document eq_refl Hload) as [-> | Hfound];
    [reflexivity |].
  destruct (json_truthy document); [| reflexivity].
  cbv beta iota delta [negb]. unfold bind, lift. by rewrite Hfound.
Qed.


(** X15. After a refresh that succeeded, a JSON library that reads back what
    it wrote makes [load_saved_tokens] return the merged record. *)
Theorem refresh_then_load (env : Env) (w : World) (merged : gmap string json) :
  (refresh_saved_tokens env w).1 = Ok (Some merged) →
  json_loads (json_dumps merged) = Some (JObj merged) →
  load_saved_tokens (refresh_saved_tokens env w).2
  = (Ok (Some (JObj merged)), (refresh_saved_tokens env w).2).
Proof.
  intros Hrefreshed Hcodec.
  destruct (refresh_saved_tokens_trace env w) as (_ & _ & Hfile & _).
  simpl in *.
  unfold load_saved_tokens. by rewrite (Hfile merged Hrefreshed), Hcodec.
Qed.
End RefreshProperties.

Section FlowEdge.
Import HubspotOauth.
Context `{Runtime}.

Lemma get_user_info_run (self : HubSpotOAuth) (access_token : json) (w : World) :
  let response := respond (sent w) (user_info_request self access_token) in
  get_user_info self access_token w
  = (if (status_code response =? 200)%Z
     then match json_loads (text response) with
          | Some body => Ok body
          | None => Raise (JSONDecodeError "Expecting value")
          end
     else Raise (Exception ("Failed to get user info: "
                            +:+ PyStr.of_int (status_code response)
                            +:+ " - " +:+ text response)),
     {| tokens_file := tokens_file w;
        sent := sent w ++ [user_info_request self access_token] |}).
Proof.
  unfold get_user_info. run_monad.
  destruct (status_code _ =? 200)%Z; [| reflexivity].
  run_monad. destruct (json_loads _); reflexivity.
Qed.

(** X11. A token response whose [scope] is not a string costs the previous
    credential file: with an [access_token] that is a string, a
    [refresh_token] that is a string or missing, and the user information
    delivered, the file has been opened for writing when [.split] fails,
    so it is left empty and the flow returns [None]. *)
Theorem interactive_oauth_flow_empties_file (env : Env) (token : string)
    (incoming : list (list string)) (w : World) (oauth_client : HubSpotOAuth)
    (server : Captured) (code : string) (token_data user_info : gmap string json)
    (access_token : string) (scope : json) :
  let exchanged := respond (sent w) (exchange_request oauth_client code) in
  let asked := respond (sent w ++ [exchange_request oauth_client code])
                 (user_info_request oauth_client (JStr access_token)) in
  HubSpotOAuth_init env = Ok oauth_client →
  wait_for_callback start_callback_server incoming = Some server →
  auth_code server = Some code →
  status_code exchanged = 200%Z →
  json_loads (text exchanged) = Some (JObj token_data) →
  token_data !! "access_token" = Some (JStr access_token) →
  (∀ value, token_data !! "refresh_token" = Some value → ∃ s, value = JStr s) →
  status_code asked = 200%Z →
  json_loads (text asked) = Some (JObj user_info) →
  token_data !! "scope" = Some scope →
  (∀ s, scope ≠ JStr s) →
  ∃ w',
    interactive_oauth_flow env token incoming w = Some (Ok None, w')
    ∧ tokens_file w' = Some EmptyString.
Proof.
  intros exchanged asked Hinit Hwait Hcode H200 Hbody Haccess Hrefresh
    Hasked Huser Hscope Hnot_str.
  unfold interactive_oauth_flow. rewrite Hinit, Hwait.
  destruct (wait_for_callback_settled incoming server Hwait)
    as [(code' & Hcode' & Hnonempty & Herror)|(reason & _ & _ & Hnone & _)];
    [| congruence].
  assert (code' = code) as -> by congruence.
  unfold after_callback. rewrite Herror, Hcode. simpl.
  destruct code as [|c code]; [done |]. simpl.
  unfold try_except, exchange_and_save.
  unfold bind at 1. rewrite exchange_code_for_token_run. fold exchanged.
  apply Z.eqb_eq in H200. rewrite H200, Hbody.
  unfold bind at 1, dict_get, ret at 1.
  unfold bind at 1. rewrite Haccess. simpl slice_prefix. unfold ret at 1.
  assert (Hslice : ∀ w0, slice_prefix (default (JStr "N/A")
                                         (token_data !! "refresh_token")) w0
                         = (Ok tt, w0)).
  { intros w0. destruct (token_data !! "refresh_token") as [value|] eqn:Hvalue;
      [| reflexivity].
    by destruct (Hrefresh value eq_refl) as [s ->]. }
  unfold bind at 1. rewrite Hslice.
  unfold bind at 1, subscript. rewrite Haccess. unfold ret at 1.
  unfold bind at 1. rewrite get_user_info_run. simpl sent. fold asked.
  apply Z.eqb_eq in Hasked. rewrite Hasked, Huser.
  unfold bind at 1, ret at 1.
  unfold bind at 1, test_api_connection. unfold bind at 1, requests_request.
  simpl.
  assert (Hsplit : ∀ w0, ∃ e, split_on_space scope w0 = (Raise e, w0)).
  { intros w0. destruct scope; simpl; unfold raise; eauto.
    by destruct (Hnot_str s). }
  destruct (status_code (respond _ (test_request _)) =? 200)%Z; unfold ret; simpl;
    unfold bind, open_for_writing; simpl; rewrite Hscope; simpl;
    match goal with |- context [split_on_space scope ?w0] =>
      destruct (Hsplit w0) as [e ->] end;
    simpl; eexists; split; reflexivity.
Qed.
End FlowEdge.

Section ClientProperties.
Import HubspotClient.
Context `{Runtime}.

(** X19. [delete_contact] never raises. It answers [True] exactly when the
    status is below 400 and the body is JSON; a success without a JSON
    body (an empty 204, say) is reported as [False]. *)
Theorem delete_contact_outcome (self : HubSpotClient) (contact_id : string) (w : World) :
  let request := build_request self "DELETE"
                   ("/crm/v3/objects/contacts/" +:+ contact_id) no_kwargs in
  let response := respond (sent w) request in
  ∃ deleted,
    delete_contact self contact_id w
    = (Ok deleted, {| tokens_file := tokens_file w; sent := sent w ++ [request] |})
    ∧ (deleted = true
       ↔ (status_code response < 400)%Z ∧ is_Some (json_loads (text response))).
Proof.
  intros request response. unfold delete_contact, try_except.
  unfold bind at 1. rewrite _make_request_run. fold request response. cbv zeta.
  destruct (Z.eqb_spec (status_code response) 401) as [H401|Hother].
  - exists false. split; [reflexivity |]. split; [discriminate |]. lia.
  - destruct (Z.leb_spec 400 (status_code response)) as [Hge|Hlt].
    + exists false. split; [reflexivity |]. split; [discriminate |]. lia.
    + destruct (json_loads (text response)) as [body|].
      * exists true. split; [reflexivity |]. split; [eauto | reflexivity].
      * exists false. split; [reflexivity |].
        split; [discriminate |]. intros [_ [? ?]]. discriminate.
Qed.

(** X20. [test_connection] never raises: it reports success when
    [get_contacts(limit=1)] returns, and otherwise puts the text of the
    exception into [message]. *)
Theorem test_connection_report (self : HubSpotClient) (w : World) :
  let request := build_request self "GET" "/crm/v3/objects/contacts"
                   (only_params [("limit", JNum 1)]) in
  let response := respond (sent w) request in
  ∃ report,
    test_connection self w
    = (Ok report, {| tokens_file := tokens_file w; sent := sent w ++ [request] |})
    ∧ (status_code response = 401%Z →
       report = {[ "status" := JStr "error";
                   "message" := JStr unauthorized_message ]})
    ∧ ((400 ≤ status_code response)%Z → status_code response ≠ 401%Z →
       report = {[ "status" := JStr "error";
                   "message" := JStr (request_failed_message (status_code response)
                                                             (text response)) ]})
    ∧ ((status_code response < 400)%Z → is_Some (json_loads (text response)) →
       report = {[ "status" := JStr "success";
                   "message" := JStr "API connection successful" ]}).
Proof.
  intros request response. unfold test_connection, try_except, get_contacts.
  unfold bind at 1. change (page_params 1 None) with [("limit", JNum 1)].
  rewrite _make_request_run. fold request response. cbv zeta.
  destruct (Z.eqb_spec (status_code response) 401) as [H401|Hother].
  - eexists. split; [reflexivity |]. simpl.
    split; [done |]. split; [done |]. lia.
  - destruct (Z.leb_spec 400 (status_code response)) as [Hge|Hlt].
    + eexists. split; [reflexivity |]. simpl.
      split; [done |]. split; [done |]. lia.
    + destruct (json_loads (text response)) as [body|].
      * eexists. split; [reflexivity |]. simpl.
        split; [done |]. split; [lia | done].
      * eexists. split; [reflexivity |]. simpl.
        split; [done |]. split; [lia |]. intros _ [? ?]. discriminate.
Qed.

(** X18. Whatever the call, the client sends exactly one request: to a URL
    under its base URL, with its own bearer headers, without form data;
    and it leaves the credential file alone. *)
Theorem perform_sends_one_request (self : HubSpotClient) (call : Call) (w : World) :
  ∃ request endpoint,
    (perform self call w).2
    = {| tokens_file := tokens_file w; sent := sent w ++ [request] |}
    ∧ url request = base_url self +:+ endpoint
    ∧ headers request = client_headers self
    ∧ data request = [].
Proof.
  destruct call; simpl;
    unfold get_contacts, search_contacts, get_contact_by_id, create_contact,
      update_contact, get_contact_notes, create_note, get_deals, create_deal,
      get_companies, create_company, get_user_info;
    rewrite _make_request_run; simpl;
    eexists _, _; (split; [reflexivity |]); simpl; auto.
Qed.

(** X17. A token handed to the constructor is used as it is and the file is
    not consulted; with no token and no usable [access_token] in the
    file the constructor raises [ValueError]. *)
Theorem HubSpotClient_create_token_source (token : option string) (w : World) :
  (∀ given, token = Some given → given ≠ EmptyString →
            HubSpotClient_create token w
            = (Ok {| base_url := "https://api.hubapi.com";
                     access_token := given;
                     client_headers := [("Authorization", "Bearer " +:+ given);
                                        ("Content-Type", "application/json")] |}, w))
  ∧ (PyStr.truthy token = false →
     (∀ content tokens value,
         tokens_file w = Some content → json_loads content = Some (JObj tokens) →
         tokens !! "access_token" = Some value → json_truthy value = false) →
     HubSpotClient_create token w
     = (Raise (ValueError "No access token provided or found"), w)).
Proof.
  split.
  - intros given -> Hgiven. unfold HubSpotClient_create.
    destruct given as [|c given]; [done |]. reflexivity.
  - intros Hfalsy Hfile. unfold HubSpotClient_create. rewrite Hfalsy.
    unfold bind, _load_access_token.
    destruct (tokens_file w) as [content|]; [| reflexivity].
    destruct (json_loads content) as [[| | | | | |tokens]|] eqn:Hload;
      try reflexivity.
    destruct (tokens !! "access_token") as [value|] eqn:Hvalue; [| reflexivity].
    by rewrite (Hfile content tokens value eq_refl Hload Hvalue).
Qed.
End ClientProperties.

Section FlowThenClient.
Import HubspotOauth.
Context `{Runtime}.

(** What [exchange_and_save] has read and written when it returns. *)
Lemma exchange_and_save_reads (oauth_client : HubSpotOAuth) (code : string)
    (w w' : World) (returned : option (gmap string json)) :
  exchange_and_save oauth_client code w = (Ok returned, w') →
  ∃ token_data user_info access_token scope_text,
    json_loads (text (respond (sent w) (exchange_request oauth_client code)))
    = Some (JObj token_data)
    ∧ token_data !! "access_token" = Some access_token
    ∧ json_loads (text (respond (sent w ++ [exchange_request oauth_client code])
                          (user_info_request oauth_client access_token)))
      = Some (JObj user_info)
    ∧ default (JStr EmptyString) (token_data !! "scope") = JStr scope_text
    ∧ tokens_file w'
      = Some (json_dumps (saved_record token_data user_info access_token
                            (PyStr.split " " scope_text))).
Proof.
  intros Hrun. unfold exchange_and_save in Hrun.
  apply bind_ok in Hrun as (answer & w1 & Hexchange & Hrun).
  apply bind_ok in Hrun as (token_data & w1' & Hdict & Hrun).
  apply dict_get_ok in Hdict as [-> ->].
  apply bind_ok in Hrun as (? & w2 & Hslice1 & Hrun).
  apply bind_ok in Hrun as (? & w3 & Hslice2 & Hrun).
  apply bind_ok in Hrun as (access_token & w4 & Htoken & Hrun).
  apply bind_ok in Hrun as (info & w5 & Huser & Hrun).
  apply bind_ok in Hrun as (user_info & w5' & Hinfo & Hrun).
  apply dict_get_ok in Hinfo as [-> ->].
  apply bind_ok in Hrun as (api_test & w6 & _ & Hrun).
  apply bind_ok in Hrun as (? & w7 & _ & Hrun).
  apply bind_ok in Hrun as (scopes & w8 & Hscopes & Hrun).
  apply bind_ok in Hrun as (? & w9 & Hdump & Hrun).
  apply split_on_space_ok in Hscopes as (scope_text & Hscope & -> & ->).
  exists token_data, user_info, access_token, scope_text.
  rewrite exchange_code_for_token_run in Hexchange. cbv zeta in Hexchange.
  destruct (status_code _ =? 200)%Z; [| discriminate].
  destruct (json_loads (text (respond (sent w) _))) as [body|] eqn:Hbody;
    [| discriminate].
  injection Hexchange as -> <-.
  assert (w2 = {| tokens_file := tokens_file w;
                  sent := sent w ++ [exchange_request oauth_client code] |}) as ->.
  { unfold slice_prefix in Hslice1.
    destruct (default (JStr "N/A") (token_data !! "access_token"));
      by injection Hslice1. }
  assert (w3 = {| tokens_file := tokens_file w;
                  sent := sent w ++ [exchange_request oauth_client code] |}) as ->.
  { unfold slice_prefix in Hslice2.
    destruct (default (JStr "N/A") (token_data !! "refresh_token"));
      by injection Hslice2. }
  unfold subscript in Htoken.
  destruct (token_data !! "access_token") as [found|] eqn:Hfound; [| discriminate].
  injection Htoken as -> <-.
  rewrite get_user_info_run in Huser. cbv zeta in Huser. simpl sent in Huser.
  destruct (status_code _ =? 200)%Z; [| discriminate].
  destruct (json_loads (text (respond (sent w ++ _) _))) as [parsed|] eqn:Hparsed;
    [| discriminate].
  injection Huser as -> _.
  unfold ret in Hrun. unfold json_dump in Hdump. simplify_eq.
  repeat split; assumption || reflexivity.
Qed.

(** X16. After a flow that succeeded, a client made without a token picks
    up the [access_token] of the token response from the file the flow
    wrote, provided the JSON library reads back the record written. *)
Theorem client_uses_saved_token (env : Env) (token : string)
    (incoming : list (list string)) (w w' : World) (summary : gmap string json)
    (oauth_client : HubSpotOAuth) (server : Captured) (code : string)
    (token_data user_info : gmap string json) (access_token : json)
    (scope_text : string) :
  interactive_oauth_flow env token incoming w = Some (Ok (Some summary), w') →
  HubSpotOAuth_init env = Ok oauth_client →
  wait_for_callback start_callback_server incoming = Some server →
  auth_code server = Some code →
  json_loads (text (respond (sent w) (exchange_request oauth_client code)))
  = Some (JObj token_data) →
  token_data !! "access_token" = Some access_token →
  json_loads (text (respond (sent w ++ [exchange_request oauth_client code])
                        (user_info_request oauth_client access_token)))
  = Some (JObj user_info) →
  default (JStr EmptyString) (token_data !! "scope") = JStr scope_text →
  let record := saved_record token_data user_info access_token
                  (PyStr.split " " scope_text) in
  json_loads (json_dumps record) = Some (JObj record) →
  HubspotClient._load_access_token w' = (Ok (Some access_token), w')
  ∧ (json_truthy access_token = true →
     HubspotClient.HubSpotClient_create None w'
     = (Ok {| HubspotClient.base_url := "https://api.hubapi.com";
              HubspotClient.access_token := py_str access_token;
              HubspotClient.client_headers :=
                [("Authorization", "Bearer " +:+ py_str access_token);
                 ("Content-Type", "application/json")] |}, w')).
Proof.
  intros Hflow Hinit Hwait Hcode Hbody Haccess Huser Hscope record Hcodec.
  unfold interactive_oauth_flow in Hflow.
  rewrite Hinit, Hwait in Hflow.
  injection Hflow as Hflow. unfold after_callback in Hflow.
  destruct (PyStr.truthy (error server)); [discriminate |].
  rewrite Hcode in Hflow.
  destruct (PyStr.truthy (Some code)); [| discriminate].
  unfold try_except in Hflow.
  destruct (exchange_and_save oauth_client code w) as [[returned|e] w1] eqn:Hsave;
    [| discriminate].
  injection Hflow as -> ->.
  apply exchange_and_save_reads in Hsave
    as (token_data' & user_info' & access_token' & scope_text'
        & Hbody' & Haccess' & Huser' & Hscope' & Hfile).
  rewrite Hbody in Hbody'. injection Hbody' as <-.
  rewrite Haccess in Haccess'. injection Haccess' as <-.
  rewrite Huser in Huser'. injection Huser' as <-.
  rewrite Hscope in Hscope'. injection Hscope' as <-.
  fold record in Hfile.
  assert (Hload : HubspotClient._load_access_token w' = (Ok (Some access_token), w')).
  { unfold HubspotClient._load_access_token.
    rewrite Hfile, Hcodec. unfold record, saved_record. by simplify_map_eq. }
  split; [exact Hload |].
  intros Htruthy. unfold HubspotClient.HubSpotClient_create. simpl PyStr.truthy.
  cbv iota. unfold bind. rewrite Hload, Htruthy. reflexivity.
Qed.
End FlowThenClient.

Section WordCount.
Import EmbeddingServer.

Lemma append_nil_r (s : string) : s +:+ EmptyString = s.
Proof.
  induction s as [|c s IH]; [reflexivity |]. rewrite append_cons. by rewrite IH.
Qed.

(** A blank does not begin in a piece of text because a space follows. *)
Lemma blank_width_before_space (s rest : string) :
  s ≠ EmptyString →
  PyStr.blank_width s = 0 →
  PyStr.blank_width (s +:+ String " " rest) = 0.
Proof.
  destruct s as [|c [|d [|e s]]]; [done | | |]; intros _;
    rewrite ?append_cons, ?append_nil_l; unfold PyStr.blank_width;
    destruct (PyStr.isspace c); try done.
  - intros _. change (N_of_ascii " ") with 32%N.
    cbn [N.eqb Pos.eqb orb]. rewrite andb_false_r.
    destruct rest as [|g rest]; [reflexivity |].
    by rewrite !andb_false_r.
  - destruct ((N_of_ascii c =? 194)%N && _); [done |]. intros _.
    change (N_of_ascii " ") with 32%N.
    change (32 =? 128)%N with false. change (128 <=? 32)%N with false.
    change (32 =? 159)%N with false. change (32 =? 168)%N with false.
    change (32 =? 169)%N with false. change (32 =? 175)%N with false.
    cbn [andb orb]. by rewrite !andb_false_r.
Qed.

Lemma has_blank_cons (c : ascii) (word : string) :
  PyStr.has_blank (String c word) = false →
  PyStr.blank_width (String c word) = 0 ∧ PyStr.has_blank word = false.
Proof.
  simpl PyStr.has_blank. intros Hclean.
  apply orb_false_elim in Hclean as [Hhere Hrest]. split; [| exact Hrest].
  apply negb_false_iff in Hhere. by apply Nat.eqb_eq in Hhere.
Qed.

Lemma count_words_in_word (word rest : string) :
  PyStr.has_blank word = false →
  PyStr.count_words true 0 (word +:+ String " " rest)
  = PyStr.count_words false 0 rest.
Proof.
  induction word as [|c word IH]; [reflexivity |].
  intros Hclean. apply has_blank_cons in Hclean as [Hhere Hword].
  rewrite append_cons.
  change (PyStr.count_words true 0 (String c (word +:+ String " " rest)))
    with (match PyStr.blank_width (String c (word +:+ String " " rest)) with
          | S more => PyStr.count_words false more (word +:+ String " " rest)
          | 0 => PyStr.count_words true 0 (word +:+ String " " rest)
          end).
  rewrite <- append_cons, (blank_width_before_space (String c word) rest) by done.
  by apply IH.
Qed.

Lemma count_words_last_word (word : string) :
  PyStr.has_blank word = false → PyStr.count_words true 0 word = 0.
Proof.
  induction word as [|c word IH]; [reflexivity |].
  intros Hclean. apply has_blank_cons in Hclean as [Hhere Hword].
  change (PyStr.count_words true 0 (String c word))
    with (match PyStr.blank_width (String c word) with
          | S more => PyStr.count_words false more word
          | 0 => PyStr.count_words true 0 word
          end).
  rewrite Hhere. by apply IH.
Qed.

Lemma count_words_new_word (word rest : string) :
  word ≠ EmptyString →
  PyStr.has_blank word = false →
  PyStr.count_words false 0 (word +:+ String " " rest)
  = S (PyStr.count_words false 0 rest).
Proof.
  destruct word as [|c word]; [done |]. intros _ Hclean.
  pose proof (count_words_in_word (String c word) rest Hclean) as Hrest.
  apply has_blank_cons in Hclean as [Hhere Hword].
  rewrite append_cons in *.
  change (PyStr.count_words false 0 (String c (word +:+ String " " rest)))
    with (match PyStr.blank_width (String c (word +:+ String " " rest)) with
          | S more => PyStr.count_words false more (word +:+ String " " rest)
          | 0 => S (PyStr.count_words true 0 (word +:+ String " " rest))
          end).
  change (PyStr.count_words true 0 (String c (word +:+ String " " rest)))
    with (match PyStr.blank_width (String c (word +:+ String " " rest)) with
          | S more => PyStr.count_words false more (word +:+ String " " rest)
          | 0 => PyStr.count_words true 0 (word +:+ String " " rest)
          end) in Hrest.
  rewrite <- append_cons in *.
  rewrite (blank_width_before_space (String c word) rest) in * by done.
  by rewrite Hrest.
Qed.

Lemma count_words_only_word (word : string) :
  word ≠ EmptyString →
  PyStr.has_blank word = false →
  PyStr.count_words false 0 word = 1.
Proof.
  destruct word as [|c word]; [done |]. intros _ Hclean.
  pose proof (count_words_last_word (String c word) Hclean) as Hrest.
  apply has_blank_cons in Hclean as [Hhere Hword].
  change (PyStr.count_words false 0 (String c word))
    with (match PyStr.blank_width (String c word) with
          | S more => PyStr.count_words false more word
          | 0 => S (PyStr.count_words true 0 word)
          end).
  change (PyStr.count_words true 0 (String c word))
    with (match PyStr.blank_width (String c word) with
          | S more => PyStr.count_words false more word
          | 0 => PyStr.count_words true 0 word
          end) in Hrest.
  rewrite Hhere in *. by rewrite Hrest.
Qed.

(** Words joined by single spaces are counted one by one. *)
Lemma word_count_join (words : list string) :
  Forall (λ word, word ≠ EmptyString ∧ PyStr.has_blank word = false) words →
  PyStr.word_count (PyStr.join " " words) = length words.
Proof.
  unfold PyStr.word_count, PyStr.join.
  induction 1 as [|word words [Hnonempty Hclean] _ IH]; [reflexivity |].
  destruct words as [|next words].
  - simpl String.concat. by apply count_words_only_word.
  - rewrite concat_cons2, append_cons, append_nil_l.
    rewrite count_words_new_word by assumption.
    by rewrite IH.
Qed.

Context {V : Type} `{SentenceTransformer V}.

(** X21. The usage of a response: both counters are the number of words of
    the batch, when each text is words separated by single spaces and no
    word has a blank (of those [str.split] knows, ASCII or not) in it. *)
Theorem create_embeddings_usage (sentences : list (list string)) (rows : list V) :
  Forall (Forall (λ word, word ≠ EmptyString ∧ PyStr.has_blank word = false))
         sentences →
  encode (PyStr.join " " <$> sentences) = Ok rows →
  ∃ response,
    create_embeddings {| input := Batch (PyStr.join " " <$> sentences) |} = inr response
    ∧ prompt_tokens (usage response) = length (concat sentences)
    ∧ total_tokens (usage response) = length (concat sentences).
Proof.
  intros Hwords.
  assert (Hsum : foldr Nat.add 0 (PyStr.word_count <$> (PyStr.join " " <$> sentences))
                 = length (concat sentences)).
  { induction Hwords as [|words sentences Hclean _ IH]; [reflexivity |].
    rewrite !fmap_cons. simpl foldr. simpl concat.
    rewrite length_app, IH. by rewrite (word_count_join words Hclean). }
  intros Hrows. unfold create_embeddings. simpl. rewrite Hrows.
  eexists. split; [reflexivity |]. simpl. by rewrite Hsum.
Qed.
End WordCount.

Section Main.
Import HubspotOauth.
Context `{Runtime}.

(** X22. Without saved tokens (no file, an unreadable one, or one that
    holds an empty or null value) [main] is the interactive flow. *)
Theorem main_without_saved_tokens (env : Env) (token : string)
    (incoming : list (list string)) (choice : string) (w : World) :
  (∀ content document,
      tokens_file w = Some content → json_loads content = Some document →
      json_truthy document = false) →
  main env token incoming choice w = interactive_oauth_flow env token incoming w.
Proof.
  intros Hnone. unfold main, load_saved_tokens.
  destruct (tokens_file w) as [content|]; [| reflexivity].
  destruct (json_loads content) as [document|] eqn:Hload; [| reflexivity].
  rewrite (Hnone content document eq_refl Hload). reflexivity.
Qed.

(** Saved tokens that are neither empty nor an object stop [main] at the
    [.get] of line 353, before anything is sent. *)
Lemma main_with_odd_tokens (env : Env) (token : string)
    (incoming : list (list string)) (choice : string) (w : World)
    (content : string) (document : json) :
  tokens_file w = Some content →
  json_loads content = Some document →
  json_truthy document = true →
  (∀ tokens, document ≠ JObj tokens) →
  main env token incoming choice w
  = Some (Raise (AttributeError "object has no attribute 'get'"), w).
Proof.
  intros Hfile Hload Htruthy Hodd. unfold main, load_saved_tokens.
  rewrite Hfile, Hload, Htruthy.
  destruct document; try reflexivity. by destruct (Hodd m).
Qed.

Lemma test_api_connection_run (self : HubSpotOAuth) (access_token : json) (w : World) :
  let response := respond (sent w) (test_request access_token) in
  test_api_connection self access_token w
  = (Ok (if (status_code response =? 200)%Z
         then {[ "status" := JStr "success";
                 "message" := JStr "API connection successful" ]}
         else {[ "status" := JStr "error";
                 "message" := JStr ("API connection failed: "
                                    +:+ PyStr.of_int (status_code response)) ]}),
     {| tokens_file := tokens_file w;
        sent := sent w ++ [test_request access_token] |}).
Proof.
  unfold test_api_connection. run_monad.
  destruct (status_code _ =? 200)%Z; reflexivity.
Qed.

(** With an object in the file, [refresh_saved_tokens] returns. *)
Lemma refresh_saved_tokens_returns (env : Env) (w : World) (content : string)
    (tokens : gmap string json) :
  tokens_file w = Some content →
  json_loads content = Some (JObj tokens) →
  ∃ value, (refresh_saved_tokens env w).1 = Ok value.
Proof.
  intros Hfile Hload.
  destruct (refresh_saved_tokens_trace env w) as (_ & _ & _ & Hraise).
  simpl in Hraise.
  destruct (refresh_saved_tokens env w).1 as [value|e]; [by eauto |].
  destruct (Hraise e eq_refl) as (_ & content' & document & Hfile' & Hload' & _ & Hodd).
  rewrite Hfile in Hfile'. injection Hfile' as <-.
  rewrite Hload in Hload'. injection Hload' as <-. discriminate Hodd.
Qed.

(** X23. With saved tokens that pass the test, the answer typed decides,
    once [strip] has taken the blanks (ASCII or not) off both ends: [1]
    returns the saved tokens as they are, [2] is [refresh_saved_tokens],
    [3] starts the new flow, anything else returns [None]. The one
    request sent before is the test. *)
Theorem main_with_valid_tokens (env : Env) (token : string)
    (incoming : list (list string)) (choice : string) (w : World)
    (content : string) (tokens : gmap string json) (access_token : json)
    (oauth_client : HubSpotOAuth) :
  tokens_file w = Some content →
  json_loads content = Some (JObj tokens) →
  tokens !! "access_token" = Some access_token →
  HubSpotOAuth_init env = Ok oauth_client →
  status_code (respond (sent w) (test_request access_token)) = 200%Z →
  let tested := {| tokens_file := tokens_file w;
                   sent := sent w ++ [test_request access_token] |} in
  (PyStr.strip choice = "1" →
   main env token incoming choice w = Some (Ok (Some tokens), tested))
  ∧ (PyStr.strip choice = "2" →
     main env token incoming choice w = Some (refresh_saved_tokens env tested))
  ∧ (PyStr.strip choice = "3" →
     main env token incoming choice w
     = interactive_oauth_flow env token incoming tested)
  ∧ (PyStr.strip choice ≠ "1" → PyStr.strip choice ≠ "2" →
     PyStr.strip choice ≠ "3" →
     main env token incoming choice w = Some (Ok None, tested)).
Proof.
  intros Hfile Hload Haccess Hinit Hstatus tested.
  assert (Hreturns : ∃ value, (refresh_saved_tokens env tested).1 = Ok value).
  { by apply (refresh_saved_tokens_returns env tested content tokens). }
  assert (Hmain : main env token incoming choice w
                  = match (if String.eqb (PyStr.strip choice) "1"
                           then ret (Return (Some tokens))
                           else if String.eqb (PyStr.strip choice) "2"
                           then (do refreshed <- refresh_saved_tokens env;
                                 ret (Return refreshed))
                           else if String.eqb (PyStr.strip choice) "3"
                           then ret StartNewFlow
                           else ret (Return None)) tested with
                    | (Ok (Return value), w1) => Some (Ok value, w1)
                    | (Ok StartNewFlow, w1) =>
                        interactive_oauth_flow env token incoming w1
                    | (Raise e, w1) => Some (Raise e, w1)
                    end).
  { unfold main, load_saved_tokens. rewrite Hfile, Hload.
    change (json_truthy (JObj tokens)) with (dict_truthy tokens).
    rewrite (dict_truthy_lookup _ _ _ Haccess).
    unfold dict_get, ret at 1.
    unfold try_saved_tokens, try_except. unfold bind at 1, lift. rewrite Hinit.
    unfold bind at 1, subscript. rewrite Haccess. unfold ret at 1.
    unfold bind at 1. rewrite test_api_connection_run. cbv zeta.
    apply Z.eqb_eq in Hstatus. rewrite Hstatus. fold tested.
    change (equals_str (_ !! "status") "success") with true. cbv iota.
    destruct (String.eqb (PyStr.strip choice) "1"); [reflexivity |].
    destruct (String.eqb (PyStr.strip choice) "2").
    - unfold bind, ret. destruct Hreturns as [value Hvalue].
      destruct (refresh_saved_tokens env tested) as [[refreshed|e] w1];
        [reflexivity | discriminate].
    - destruct (String.eqb (PyStr.strip choice) "3"); reflexivity. }
  rewrite Hmain. repeat split.
  - intros ->. reflexivity.
  - intros ->. simpl. unfold bind, ret. destruct Hreturns as [value Hvalue].
    destruct (refresh_saved_tokens env tested) as [[refreshed|e] w1];
      [reflexivity | discriminate].
  - intros ->. reflexivity.
  - intros H1 H2 H3.
    apply String.eqb_neq in H1, H2, H3. by rewrite H1, H2, H3.
Qed.

(** X24. Saved tokens that fail the test are not offered: after the one
    test request [main] goes on to the interactive flow. *)
Theorem main_with_stale_tokens (env : Env) (token : string)
    (incoming : list (list string)) (choice : string) (w : World)
    (content : string) (tokens : gmap string json) (access_token : json)
    (oauth_client : HubSpotOAuth) :
  tokens_file w = Some content →
  json_loads content = Some (JObj tokens) →
  tokens !! "access_token" = Some access_token →
  HubSpotOAuth_init env = Ok oauth_client →
  status_code (respond (sent w) (test_request access_token)) ≠ 200%Z →
  main env token incoming choice w
  = interactive_oauth_flow env token incoming
      {| tokens_file := tokens_file w;
         sent := sent w ++ [test_request access_token] |}.
Proof.
  intros Hfile Hload Haccess Hinit Hstatus.
  unfold main, load_saved_tokens. rewrite Hfile, Hload.
  change (json_truthy (JObj tokens)) with (dict_truthy tokens).
  rewrite (dict_truthy_lookup _ _ _ Haccess).
  unfold dict_get, ret at 1.
  unfold try_saved_tokens, try_except. unfold bind at 1, lift. rewrite Hinit.
  unfold bind at 1, subscript. rewrite Haccess. unfold ret at 1.
  unfold bind at 1. rewrite test_api_connection_run. cbv zeta.
  apply Z.eqb_neq in Hstatus. rewrite Hstatus.
  change (equals_str (_ !! "status") "success") with false. cbv iota.
  by rewrite Hfile.
Qed.
End Main.

(** ** The further properties at concrete inputs *)

(** X1. Splitting at single spaces and joining with a space undo each
    other: joining the pieces of any string gives the string back, and
    splitting the join of a non-empty list of space-free scopes gives the
    list back. *)
Theorem scope_split_join_inverse :
  (∀ scope_text, PyStr.join " " (PyStr.split " " scope_text) = scope_text)
  ∧ (∀ scopes, scopes ≠ [] →
               Forall (λ scope, PyStr.occurs " " scope = false) scopes →
               PyStr.split " " (PyStr.join " " scopes) = scopes).
Proof.
  split.
  - intros scope_text. apply (join_split " ").
  - intros scopes Hne Hclean. by apply (split_join " ").
Qed.

Lemma scope_split_join_inverse_witness :
  PyStr.join " " (PyStr.split " " "oauth  crm.read ") = "oauth  crm.read "
  ∧ PyStr.split " " (PyStr.join " " ["crm.objects.contacts.read"; "oauth"])
    = ["crm.objects.contacts.read"; "oauth"].
Proof.
  split.
  - apply scope_split_join_inverse.
  - apply scope_split_join_inverse; [discriminate | repeat constructor].
Defined.

(** X2. What [urlencode] writes, [parse_qsl] reads back, as long as no
    value is empty (fields with an empty value are dropped by the
    parser). *)
Theorem parse_qsl_urlencode (query : list (string * string)) :
  Forall (λ kv, kv.2 ≠ EmptyString) query →
  Urllib.parse_qsl (Urllib.urlencode query) = query.
Proof. apply parse_qsl_of_urlencode. Qed.

Lemma parse_qsl_urlencode_witness :
  Urllib.parse_qsl (Urllib.urlencode [("code", "a b&c=d"); ("state", "x/y#z")])
  = [("code", "a b&c=d"); ("state", "x/y#z")].
Proof.
  apply parse_qsl_urlencode. repeat constructor; discriminate.
Defined.

Lemma authorization_url_parses_back_witness :
  Urllib.parse_qsl
    (Urllib.urlparse_query
       (HubspotOauth.get_authorization_url Fixtures.oauth_client
          (Some ["oauth"; "crm.objects.contacts.read"]) (Some "x/y z") "unused"))
  = [("client_id", "client-1");
     ("redirect_uri", "http://localhost:4000/hubspot/oauth/callback");
     ("scope", "oauth crm.objects.contacts.read");
     ("response_type", "code");
     ("state", "x/y z")].
Proof.
  apply (authorization_url_parses_back Fixtures.credentials Fixtures.oauth_client
           ["oauth"; "crm.objects.contacts.read"] "x/y z" "unused");
    [reflexivity | discriminate..].
Defined.

(** X4. Every list in the dictionary [parse_qs] builds has a first
    element and holds non-empty strings only, so [query_params[name][0]]
    cannot fail and what is captured is never the empty string. *)
Theorem parse_qs_values (qs name : string) (values : list string) :
  Urllib.parse_qs qs !! name = Some values →
  (∃ first others, values = first :: others)
  ∧ Forall (λ value, value ≠ EmptyString) values.
Proof. apply parse_qs_lists. Qed.

Lemma parse_qs_values_witness :
  (∃ first others, ["a"; "b c"] = first :: others)
  ∧ Forall (λ value, value ≠ EmptyString) ["a"; "b c"].
Proof.
  apply (parse_qs_values "code=a&state=&code=b+c&code=" "code" ["a"; "b c"]).
  vm_compute. reflexivity.
Defined.



Lemma wait_for_callback_wiped_witness :
  @HubspotOauth.wait_for_callback Fixtures.granting HubspotOauth.start_callback_server
    (([Fixtures.callback_with_code] ++ ["/favicon.ico"]) :: [])
  = @HubspotOauth.wait_for_callback Fixtures.granting
      HubspotOauth.start_callback_server [].
Proof.
  apply (@wait_for_callback_wiped Fixtures.granting [Fixtures.callback_with_code]
           "/favicon.ico" EmptyString []);
    vm_compute; reflexivity.
Defined.


Lemma interactive_oauth_flow_ignores_state_witness :
  @HubspotOauth.interactive_oauth_flow Fixtures.granting Fixtures.credentials
    "state-1" ([[]] ++ ["/hubspot/oauth/callback?code=abc123&state=state-1"] :: [])
    Fixtures.empty_world
  = @HubspotOauth.interactive_oauth_flow Fixtures.granting Fixtures.credentials
      "state-2" ([[]] ++ ["/hubspot/oauth/callback?state=forged&code=abc123"] :: [["/"]])
      Fixtures.empty_world.
Proof.
  apply (@interactive_oauth_flow_ignores_state Fixtures.granting Fixtures.credentials
           "state-1" "state-2"
           "/hubspot/oauth/callback?code=abc123&state=state-1"
           "/hubspot/oauth/callback?state=forged&code=abc123"
           "code=abc123&state=state-1" "state=forged&code=abc123"
           [[]] [] [["/"]] Fixtures.empty_world ["abc123"]);
    vm_compute; reflexivity.
Defined.

Lemma interactive_oauth_flow_frame_witness :
  ∃ value w' more,
    @HubspotOauth.interactive_oauth_flow Fixtures.gateway_page Fixtures.credentials
      "state-1" [[]; [Fixtures.callback_with_code]] Fixtures.saved_world
    = Some (Ok value, w')
    ∧ sent w' = sent Fixtures.saved_world ++ more
    ∧ (length more ≤ 3)%nat
    ∧ (value = None →
       tokens_file w' = tokens_file Fixtures.saved_world
       ∨ tokens_file w' = Some EmptyString).
Proof.
  apply (@interactive_oauth_flow_frame Fixtures.gateway_page Fixtures.credentials
           "state-1" [[]; [Fixtures.callback_with_code]] Fixtures.saved_world
           Fixtures.oauth_client
           {| HubspotOauth.auth_code := Some "abc123";
              HubspotOauth.state := Some "state-1";
              HubspotOauth.error := None |});
    vm_compute; reflexivity.
Defined.

Lemma interactive_oauth_flow_exchange_failed_witness :
  @HubspotOauth.interactive_oauth_flow Fixtures.rejecting Fixtures.credentials
    "state-1" [[Fixtures.callback_with_code]] Fixtures.saved_world
  = Some (Ok None,
          {| tokens_file := tokens_file Fixtures.saved_world;
             sent := sent Fixtures.saved_world
                     ++ [HubspotOauth.exchange_request Fixtures.oauth_client "abc123"] |}).
Proof.
  apply (@interactive_oauth_flow_exchange_failed Fixtures.rejecting
           Fixtures.credentials "state-1" [[Fixtures.callback_with_code]]
           Fixtures.saved_world Fixtures.oauth_client
           {| HubspotOauth.auth_code := Some "abc123";
              HubspotOauth.state := Some "state-1";
              HubspotOauth.error := None |} "abc123");
    try (vm_compute; reflexivity).
  vm_compute. discriminate.
Defined.

Lemma interactive_oauth_flow_empties_file_witness :
  ∃ w',
    @HubspotOauth.interactive_oauth_flow Fixtures.null_scoping Fixtures.credentials
      "state-1" [[Fixtures.callback_with_code]] Fixtures.saved_world
    = Some (Ok None, w')
    ∧ tokens_file w' = Some EmptyString.
Proof.
  apply (@interactive_oauth_flow_empties_file Fixtures.null_scoping
           Fixtures.credentials "state-1" [[Fixtures.callback_with_code]]
           Fixtures.saved_world Fixtures.oauth_client
           {| HubspotOauth.auth_code := Some "abc123";
              HubspotOauth.state := Some "state-1";
              HubspotOauth.error := None |} "abc123"
           Fixtures.null_scope_body Fixtures.user_body "access-0" JNull);
    try (vm_compute; reflexivity).
  - intros value Hvalue. vm_compute in Hvalue. injection Hvalue as <-. by eexists.
  - intros s. discriminate.
Defined.


Lemma refresh_saved_tokens_without_refresh_token_witness :
  @HubspotOauth.refresh_saved_tokens Fixtures.odd_files Fixtures.credentials
    {| tokens_file := Some "[1]"; sent := [] |}
  = (Ok None, {| tokens_file := Some "[1]"; sent := [] |}).
Proof.
  apply (@refresh_saved_tokens_without_refresh_token Fixtures.odd_files
           Fixtures.credentials {| tokens_file := Some "[1]"; sent := [] |}).
  intros content document [= <-] Hload. vm_compute in Hload.
  injection Hload as <-. right. reflexivity.
Defined.

(** X14. [refresh_saved_tokens] sends at most one request, the refresh;
    when it returns [None] the credential file is what it was, and when
    it returns a record that record is what the file now holds. It raises
    only on a credential file that holds [true] or a number other than
    zero, at the test of line 322, which stands before the [try]; nothing
    has been sent or written then. *)
Theorem refresh_saved_tokens_frame `{Runtime} (env : HubspotOauth.Env) (w : World) :
  let final := HubspotOauth.refresh_saved_tokens env w in
  (sent final.2 = sent w
   ∨ ∃ oauth_client refresh_token,
       HubspotOauth.HubSpotOAuth_init env = Ok oauth_client
       ∧ sent final.2
         = sent w ++ [HubspotOauth.refresh_request oauth_client refresh_token])
  ∧ (final.1 = Ok None → tokens_file final.2 = tokens_file w)
  ∧ (∀ merged, final.1 = Ok (Some merged) →
               tokens_file final.2 = Some (json_dumps merged))
  ∧ (∀ e, final.1 = Raise e →
          final.2 = w
          ∧ ∃ content document,
              tokens_file w = Some content
              ∧ json_loads content = Some document
              ∧ json_truthy document = true
              ∧ not_iterable document = true).
Proof. apply refresh_saved_tokens_trace. Qed.

Lemma refresh_saved_tokens_frame_witness :
  (@HubspotOauth.refresh_saved_tokens Fixtures.rejecting Fixtures.credentials
     Fixtures.saved_world).1 = Ok None
  ∧ tokens_file (@HubspotOauth.refresh_saved_tokens Fixtures.rejecting
                   Fixtures.credentials Fixtures.saved_world).2
    = tokens_file Fixtures.saved_world
  ∧ (@HubspotOauth.refresh_saved_tokens Fixtures.odd_files Fixtures.credentials
       {| tokens_file := Some "5"; sent := [] |}).2
    = {| tokens_file := Some "5"; sent := [] |}.
Proof.
  destruct (@refresh_saved_tokens_frame Fixtures.rejecting Fixtures.credentials
              Fixtures.saved_world) as (_ & Hnone & _).
  destruct (@refresh_saved_tokens_frame Fixtures.odd_files Fixtures.credentials
              {| tokens_file := Some "5"; sent := [] |}) as (_ & _ & _ & Hraise).
  split; [vm_compute; reflexivity |].
  split; [apply Hnone; vm_compute; reflexivity |].
  apply (Hraise (TypeError "argument is not iterable")). vm_compute. reflexivity.
Defined.

Lemma refresh_then_load_witness :
  @HubspotOauth.load_saved_tokens Fixtures.refreshing_readable
    (@HubspotOauth.refresh_saved_tokens Fixtures.refreshing_readable
       Fixtures.credentials Fixtures.saved_world).2
  = (Ok (Some (JObj Fixtures.merged_tokens)),
     (@HubspotOauth.refresh_saved_tokens Fixtures.refreshing_readable
        Fixtures.credentials Fixtures.saved_world).2).
Proof.
  apply (@refresh_then_load Fixtures.refreshing_readable Fixtures.credentials
           Fixtures.saved_world Fixtures.merged_tokens);
    vm_compute; reflexivity.
Defined.

Lemma client_uses_saved_token_witness :
  @HubspotClient._load_access_token Fixtures.granting_readable Fixtures.granted_world
  = (Ok (Some (JStr "access-0")), Fixtures.granted_world)
  ∧ (json_truthy (JStr "access-0") = true →
     @HubspotClient.HubSpotClient_create Fixtures.granting_readable None
       Fixtures.granted_world
     = (Ok Fixtures.client, Fixtures.granted_world)).
Proof.
  apply (@client_uses_saved_token Fixtures.granting_readable Fixtures.credentials
           "state-1" [[]; [Fixtures.callback_with_code]] Fixtures.empty_world
           Fixtures.granted_world Fixtures.granted_summary Fixtures.oauth_client
           {| HubspotOauth.auth_code := Some "abc123";
              HubspotOauth.state := Some "state-1";
              HubspotOauth.error := None |} "abc123"
           Fixtures.token_body Fixtures.user_body (JStr "access-0") EmptyString);
    vm_compute; reflexivity.
Defined.

Lemma HubSpotClient_create_token_source_witness :
  @HubspotClient.HubSpotClient_create Fixtures.granting (Some "access-0")
    Fixtures.saved_world = (Ok Fixtures.client, Fixtures.saved_world)
  ∧ @HubspotClient.HubSpotClient_create Fixtures.granting None Fixtures.empty_world
    = (Raise (ValueError "No access token provided or found"), Fixtures.empty_world).
Proof.
  destruct (@HubSpotClient_create_token_source Fixtures.granting (Some "access-0")
              Fixtures.saved_world) as [Hgiven _].
  destruct (@HubSpotClient_create_token_source Fixtures.granting None
              Fixtures.empty_world) as [_ Hmissing].
  split.
  - apply (Hgiven "access-0"); [reflexivity | discriminate].
  - apply Hmissing; [reflexivity |]. intros content tokens value Hfile. discriminate Hfile.
Defined.

Lemma delete_contact_outcome_witness :
  @HubspotClient.delete_contact Fixtures.no_content Fixtures.client "42"
    Fixtures.empty_world
  = (Ok false,
     {| tokens_file := None;
        sent := [HubspotClient.build_request Fixtures.client "DELETE"
                   "/crm/v3/objects/contacts/42" HubspotClient.no_kwargs] |}).
Proof.
  destruct (@delete_contact_outcome Fixtures.no_content Fixtures.client "42"
              Fixtures.empty_world) as (deleted & Hrun & Hiff).
  destruct deleted; [| exact Hrun].
  destruct (proj1 Hiff eq_refl) as [_ [body Hbody]]. discriminate Hbody.
Defined.

Lemma test_connection_report_witness :
  ∃ report,
    @HubspotClient.test_connection Fixtures.rejecting Fixtures.client
      Fixtures.empty_world
    = (Ok report, {| tokens_file := None; sent := [] ++ [Fixtures.probe] |})
    ∧ report = {[ "status" := JStr "error";
                  "message" := JStr "API request failed: 400 - BAD_REFRESH_TOKEN" ]}.
Proof.
  destruct (@test_connection_report Fixtures.rejecting Fixtures.client
              Fixtures.empty_world) as (report & Hrun & _ & Hfailed & _).
  exists report. split; [exact Hrun |].
  apply Hfailed; vm_compute; discriminate.
Defined.

Lemma create_embeddings_usage_witness :
  ∃ response,
    @EmbeddingServer.create_embeddings nat Fixtures.length_model
      {| EmbeddingServer.input :=
           EmbeddingServer.Batch (PyStr.join " " <$> [["hello"; "world"]; ["advisor"]]) |}
    = inr response
    ∧ EmbeddingServer.prompt_tokens (EmbeddingServer.usage response) = 3
    ∧ EmbeddingServer.total_tokens (EmbeddingServer.usage response) = 3.
Proof.
  apply (@create_embeddings_usage nat Fixtures.length_model
           [["hello"; "world"]; ["advisor"]] [11; 7]).
  - repeat constructor; discriminate.
  - reflexivity.
Defined.

Lemma main_without_saved_tokens_witness :
  @HubspotOauth.main Fixtures.odd_files Fixtures.credentials "state-1"
    [[]; [Fixtures.callback_with_code]] "2" {| tokens_file := Some "[]"; sent := [] |}
  = @HubspotOauth.interactive_oauth_flow Fixtures.odd_files Fixtures.credentials
      "state-1" [[]; [Fixtures.callback_with_code]]
      {| tokens_file := Some "[]"; sent := [] |}.
Proof.
  apply (@main_without_saved_tokens Fixtures.odd_files).
  intros content document [= <-] Hload. vm_compute in Hload.
  injection Hload as <-. reflexivity.
Defined.

Lemma main_with_valid_tokens_witness :
  @HubspotOauth.main Fixtures.refreshing Fixtures.credentials "state-1" [] " 1 "
    Fixtures.saved_world
  = Some (Ok (Some Fixtures.saved_tokens),
          {| tokens_file := Some "saved";
             sent := [] ++ [@HubspotOauth.test_request Fixtures.refreshing
                              (JStr "access-0")] |})
  ∧ @HubspotOauth.main Fixtures.refreshing Fixtures.credentials "state-1" [] "yes"
      Fixtures.saved_world
    = Some (Ok None,
            {| tokens_file := Some "saved";
               sent := [] ++ [@HubspotOauth.test_request Fixtures.refreshing
                                (JStr "access-0")] |}).
Proof.
  destruct (@main_with_valid_tokens Fixtures.refreshing Fixtures.credentials "state-1"
              [] " 1 " Fixtures.saved_world "saved" Fixtures.saved_tokens
              (JStr "access-0") Fixtures.oauth_client) as (Hkeep & _);
    try reflexivity.
  destruct (@main_with_valid_tokens Fixtures.refreshing Fixtures.credentials "state-1"
              [] "yes" Fixtures.saved_world "saved" Fixtures.saved_tokens
              (JStr "access-0") Fixtures.oauth_client) as (_ & _ & _ & Hother);
    try reflexivity.
  split.
  - apply Hkeep. reflexivity.
  - apply Hother; discriminate.
Defined.

Lemma main_with_stale_tokens_witness :
  @HubspotOauth.main Fixtures.rejecting Fixtures.credentials "state-1"
    [[Fixtures.callback_with_code]] "1" Fixtures.saved_world
  = @HubspotOauth.interactive_oauth_flow Fixtures.rejecting Fixtures.credentials
      "state-1" [[Fixtures.callback_with_code]]
      {| tokens_file := tokens_file Fixtures.saved_world;
         sent := sent Fixtures.saved_world
                 ++ [@HubspotOauth.test_request Fixtures.rejecting (JStr "access-0")] |}.
Proof.
  apply (@main_with_stale_tokens Fixtures.rejecting Fixtures.credentials "state-1"
           [[Fixtures.callback_with_code]] "1" Fixtures.saved_world "saved"
           Fixtures.saved_tokens (JStr "access-0") Fixtures.oauth_client);
    try reflexivity.
  vm_compute. discriminate.
Defined.
